(** * The stream-power erosion routine of SPLM.ipynb

    A shallow embedding of [stream_power_erosion], the explicit
    finite-difference integrator of the notebook, and the properties of it
    that the specification states.

    The routine is NumPy code over binary64 numbers.  Scalars and array
    elements are Rocq's primitive [float]s (IEEE 754 binary64, as Python's
    [float] and NumPy's [float64]); Python's [int] is [Z]; a one-dimensional
    array is a [list float].  The caller's array [z] is updated in place and
    the routine prints to the standard output: both live in a [store] that a
    small state-and-exception monad threads through the code, so that what a
    raised exception leaves behind is part of the result.

    NumPy's power [**] is library code outside the notebook: the embedding
    takes it as the parameter [fpow]. *)

From Stdlib Require Import String Ascii DecimalString ZArith Bool Lia Floats List.
Import ListNotations.

(** ** Python exceptions and results *)

(** The three ways the routine meets a [ValueError]. *)
Inductive value_error : Type :=
| EmptySequence   (* max() arg is an empty sequence *)
| NanToInteger    (* cannot convert float NaN to integer *)
| Broadcast.      (* operands could not be broadcast together *)

Inductive exn : Type :=
| ValueError (why : value_error)
| OverflowError       (* cannot convert float infinity to integer *)
| ZeroDivisionError.  (* float division by zero *)

Inductive result (A : Type) : Type :=
| Ok (a : A)
| Raise (e : exn).

Arguments Ok {A} a.
Arguments Raise {A} e.

(** ** binary64 scalars as Python sees them *)

Module Py.

(** The exact value of a finite binary64 number as a fraction with a
    positive denominator: [(-1)^s * m * 2^e]. *)
Definition ratio (x : spec_float) : Z * Z :=
  match x with
  | S754_finite s m e =>
      (cond_Zopp s (Zpos m) * 2 ^ Z.max e 0, 2 ^ Z.max (- e) 0)%Z
  | _ => (0, 1)%Z
  end.

(** [int(x)]: truncation toward zero; infinities and NaN raise. *)
Definition int (x : float) : result Z :=
  match Prim2SF x with
  | S754_nan => Raise (ValueError NanToInteger)
  | S754_infinity _ => Raise OverflowError
  | sf => let (p, q) := ratio sf in Ok (Z.quot p q)
  end.

(** The mathematical floor of a finite binary64 number (0 elsewhere); the
    routine never computes it, the specification speaks of it. *)
Definition floor (x : float) : Z :=
  let (p, q) := ratio (Prim2SF x) in Z.div p q.

(** [float(k)] for a Python integer, rounded to nearest even.  The routine
    converts only integers obtained by [int] from a binary64 number, for
    which the conversion is exact. *)
Definition float_of_int (k : Z) : float :=
  SF2Prim (binary_normalize prec emax k 0 false).

(** [x > k] for a float [x] and an integer [k]: Python compares the exact
    values. *)
Definition gt_int (x : float) (k : Z) : bool :=
  match Prim2SF x with
  | S754_nan => false
  | S754_infinity s => negb s
  | sf => let (p, q) := ratio sf in (k * q <? p)%Z
  end.

(** [x / y] on Python numbers: a zero divisor raises. *)
Definition truediv (x y : float) : result float :=
  if (y =? 0)%float then Raise ZeroDivisionError else Ok (x / y)%float.

(** The builtin [max] over the elements of a sequence: the first element,
    replaced by each later one that compares greater. *)
Definition max (xs : list float) : result float :=
  match xs with
  | [] => Raise (ValueError EmptySequence)
  | x :: rest =>
      Ok (fold_left (fun mx y => if (mx <? y)%float then y else mx) rest x)
  end.

(** ['%.02f' % k] for an integer that is exactly a binary64 number. *)
Definition format_02f (k : Z) : string :=
  (NilZero.string_of_int (Z.to_int k) ++ ".00")%string.

Definition stars (k : nat) : string :=
  string_of_list_ascii (repeat "*"%char k).

(** [s.center(80, '*')] for the two strings the routine centres: the
    padding of 71 goes 35 to the left and 36 to the right. *)
Definition center_warning : string :=
  (stars 35 ++ " WARNING " ++ stars 36)%string.

Definition center_empty : string := stars 80.

Definition nl : string := String (ascii_of_nat 10) EmptyString.

End Py.

(** ** One-dimensional NumPy arrays *)

Module Np.

Definition array := list float.

(** Elementwise operation on two arrays of one length. *)
Definition zip (f : float -> float -> float) (x y : array) : array :=
  map (fun p => f (fst p) (snd p)) (combine x y).

(** Elementwise binary operation with NumPy's broadcasting of
    one-dimensional operands: equal lengths pair up, a length-1 operand is
    stretched, anything else raises. *)
Definition broadcast (f : float -> float -> float) (x y : array)
  : result array :=
  if (length x =? length y)%nat then Ok (zip f x y)
  else match x, y with
       | [a], _ => Ok (map (f a) y)
       | _, [b] => Ok (map (fun a => f a b) x)
       | _, _ => Raise (ValueError Broadcast)
       end.

(** [x[1:]] and [x[:-1]]. *)
Definition from1 (x : array) : array := tl x.
Definition upto_last (x : array) : array := removelast x.

(** What [x[:-1]] leaves out: the last element, if any. *)
Definition outlet (x : array) : array := skipn (length x - 1) x.

(** The in-place [target += rhs] on a view of the length of [target]: the
    right-hand side must have the target's shape once broadcast. *)
Definition iadd (target rhs : array) : result array :=
  if (length rhs =? length target)%nat
  then Ok (zip add target rhs)
  else match rhs with
       | [r] => Ok (map (fun a => (a + r)%float) target)
       | _ => Raise (ValueError Broadcast)
       end.

End Np.

(** ** The store and its monad *)

Record store : Type := mkStore {
  profile : Np.array;     (* the caller's array z *)
  stdout : list string    (* the lines printed so far *)
}.

Definition M (A : Type) : Type := store -> result A * store.

Definition ret {A} (a : A) : M A := fun s => (Ok a, s).

Definition bind {A B} (c : M A) (k : A -> M B) : M B :=
  fun s => match c s with
           | (Ok a, s') => k a s'
           | (Raise e, s') => (Raise e, s')
           end.

Definition lift {A} (r : result A) : M A := fun s => (r, s).

Definition get_profile : M Np.array := fun s => (Ok (profile s), s).

Definition set_profile (z : Np.array) : M unit :=
  fun s => (Ok tt, mkStore z (stdout s)).

Definition print (line : string) : M unit :=
  fun s => (Ok tt, mkStore (profile s) (stdout s ++ [line])).

Notation "x <- c ;; k" := (bind c (fun x => k))
  (at level 61, c at next level, right associativity).
Notation "c ;; k" := (bind c (fun _ => k))
  (at level 61, right associativity).

(** [for t in range(k): body]. *)
Fixpoint for_range (k : nat) (body : M unit) : M unit :=
  match k with
  | O => ret tt
  | S k' => body ;; for_range k' body
  end.

(** ** The routine *)

(** The shapes that the array arithmetic of one loop body accepts, for a
    velocity field [v] and a profile [z]: [v[1:]] has the length of
    [z[:-1]], or it has length 1 and is stretched. *)
Definition shapes_agree (v z : Np.array) : bool :=
  (length v - 1 =? length z - 1)%nat || (length v - 1 =? 1)%nat.

(** The literal [0.95]. *)
Definition c095 : float := 0x1.e666666666666p-1%float.

Section StreamPower.

(** NumPy's [x ** e] on binary64 numbers. *)
Variable fpow : float -> float -> float.

(** [v = -K*A**m]: unary minus applies to [K], the power binds tighter
    than the product. *)
Definition velocity (K : float) (A : Np.array) (m : float) : Np.array :=
  map (fun a => (- K * fpow a m)%float) A.

(** [dt_stable = int(0.95*dx/max(abs(v)))].  The divisor is a NumPy
    scalar: dividing by zero gives an infinity or NaN, not an exception. *)
Definition dt_stable (dx : float) (v : Np.array) : result Z :=
  match Py.max (map abs v) with
  | Ok mx => Py.int (c095 * dx / mx)%float
  | Raise e => Raise e
  end.

(** The three lines of the warning. *)
Definition warning_text (k : Z) : string :=
  ("Timestep provided is too large and will result in model instabilities "
   ++ Py.nl ++ "Timestep will be set to the maximal stable timestep of "
   ++ Py.format_02f k ++ " " ++ Py.nl
   ++ "Reducing the timestep will incerase model runtime, adjust parameters if required")%string.

Definition warning (k : Z) : list string :=
  [Py.center_warning; warning_text k; Py.center_empty].

(** [if dt > dt_stable: print ...; dt = dt_stable]. *)
Definition check_timestep (dt : float) (k : Z) : M float :=
  if Py.gt_int dt k then
    print Py.center_warning ;;
    print (warning_text k) ;;
    print Py.center_empty ;;
    ret (Py.float_of_int k)
  else ret dt.

(** What [check_timestep] prints. *)
Definition printed (dt : float) (k : Z) : list string :=
  if Py.gt_int dt k then warning k else [].

(** The timestep the loop runs with. *)
Definition effective_dt (dt : float) (k : Z) : float :=
  if Py.gt_int dt k then Py.float_of_int k else dt.

(** [nt_iterations = int(total_time/dt)]. *)
Definition nt_iterations (total_time dt : float) : result Z :=
  match Py.truediv total_time dt with
  | Ok q => Py.int q
  | Raise e => Raise e
  end.

(** The slope term of one node, [(abs(d)/dx)**n] for the difference [d] of
    its neighbour's elevation and its own. *)
Definition slope_power (dx n d : float) : float :=
  fpow (abs d / dx)%float n.

(** The temporary [v[1:]*dt*(abs(z[1:]-z[:-1])/dx)**n], evaluated in full
    before the in-place addition reads it. *)
Definition erosion (v : Np.array) (dt dx n : float) (z : Np.array)
  : result Np.array :=
  match Np.broadcast sub (Np.from1 z) (Np.upto_last z) with
  | Ok d =>
      Np.broadcast mul (map (fun x => (x * dt)%float) (Np.from1 v))
                   (map (slope_power dx n) d)
  | Raise e => Raise e
  end.

(** [z[:-1] += rhs]. *)
Definition iadd_upto_last (rhs : Np.array) : M unit :=
  z <- get_profile ;;
  t <- lift (Np.iadd (Np.upto_last z) rhs) ;;
  set_profile (t ++ Np.outlet z).

(** The body of the loop. *)
Definition step (v : Np.array) (dt dx U n : float) : M unit :=
  z <- get_profile ;;
  e <- lift (erosion v dt dx n z) ;;
  iadd_upto_last e ;;
  iadd_upto_last [(U * dt)%float].

Definition stream_power_erosion (dx : float) (A : Np.array)
    (total_time dt U K m n : float) : M Np.array :=
  let v := velocity K A m in
  k <- lift (dt_stable dx v) ;;
  dt <- check_timestep dt k ;;
  nt <- lift (nt_iterations total_time dt) ;;
  for_range (Z.to_nat nt) (step v dt dx U n) ;;
  get_profile.

(** A call on the caller's array [z], with nothing printed yet. *)
Definition call (z : Np.array) (dx : float) (A : Np.array)
    (total_time dt U K m n : float) : result Np.array * store :=
  stream_power_erosion dx A total_time dt U K m n (mkStore z []).

End StreamPower.

(** NumPy evaluates [x ** e] for a scalar exponent 1, 2 or 0.5 as a copy, a
    square or a square root.  [pow_fastpath] is [**] at those exponents; it
    serves to run the embedding on concrete inputs, all of which use these
    exponents only (elsewhere it answers NaN and stands for nothing). *)
Definition pow_fastpath (x e : float) : float :=
  if (e =? 1)%float then x
  else if (e =? 2)%float then (x * x)%float
  else if (e =? 0.5)%float then sqrt x
  else nan.



(** ** Concrete inputs

    The defaults [U = 1e-3] and [K = 1e-4] of the routine, and small
    profiles and drainage areas on which the properties below are run. *)

Module Demo.

Definition U : float := 0x1.0624dd2f1a9fcp-10%float.
Definition K : float := 0x1.a36e2eb1c432dp-14%float.

Definition z3 : Np.array := [3; 1; 0]%float.
Definition A3 : Np.array := [100; 400; 900]%float.

Definition zeros2 : Np.array := [0; 0]%float.
Definition zeros3 : Np.array := [0; 0; 0]%float.
Definition ones2 : Np.array := [1; 1]%float.

Definition z1 : Np.array := [5]%float.
Definition A1 : Np.array := [4]%float.

Definition z2 : Np.array := [3; 1]%float.
Definition w2 : Np.array := [1; 3]%float.

End Demo.

(** * Properties *)

(** ** Facts on binary64 arithmetic *)

Module FloatFacts.

Lemma abs_opp (x : float) : abs (- x) = abs x.
Proof.
  apply Prim2SF_inj. rewrite !abs_spec, opp_spec.
  destruct (Prim2SF x); reflexivity.
Qed.

Lemma eqb_zero (x : float) :
  (x =? 0)%float = true -> exists s, Prim2SF x = S754_zero s.
Proof.
  rewrite eqb_spec. change (Prim2SF 0) with (S754_zero false).
  destruct (Prim2SF x) as [s|s| |s m e]; cbn; try discriminate; eauto;
    destruct s; discriminate.
Qed.

Lemma eqb_zero_false (x : float) :
  (x =? 0)%float = false -> forall s, Prim2SF x <> S754_zero s.
Proof.
  rewrite eqb_spec. change (Prim2SF 0) with (S754_zero false).
  intros H s E. rewrite E in H. discriminate.
Qed.

(** Dividing by a zero gives an infinity or NaN, which [int] refuses. *)
Lemma int_div_zero (x y : float) (s : bool) :
  Prim2SF y = S754_zero s ->
  Py.int (x / y) = Raise OverflowError \/
  Py.int (x / y) = Raise (ValueError NanToInteger).
Proof.
  intros E. unfold Py.int. rewrite div_spec, E.
  destruct (Prim2SF x); cbn; auto.
Qed.

Lemma int_div_nan (x y : float) :
  Prim2SF y = S754_nan -> Py.int (x / y) = Raise (ValueError NanToInteger).
Proof.
  intros E. unfold Py.int. rewrite div_spec, E.
  destruct (Prim2SF x); reflexivity.
Qed.

(** A zero divided by anything but a zero or NaN is a zero. *)
Lemma int_zero_div (x y : float) :
  (x =? 0)%float = true -> (y =? 0)%float = false -> is_nan y = false ->
  Py.int (x / y) = Ok 0%Z.
Proof.
  intros Hx Hy Hn. destruct (eqb_zero _ Hx) as [s E].
  pose proof (eqb_zero_false _ Hy) as Hz.
  unfold is_nan in Hn. rewrite eqb_spec in Hn.
  unfold Py.int. rewrite div_spec, E.
  destruct (Prim2SF y) as [sy|sy| |sy my ey]; cbn in *;
    try discriminate; try reflexivity.
  exfalso. eapply Hz. reflexivity.
Qed.

(** For a finite or zero argument that is not negative, [int] is the
    floor. *)
Lemma int_floor_nonneg (x : float) :
  (0 <=? x)%float = true -> (x <? infinity)%float = true ->
  Py.int x = Ok (Py.floor x).
Proof.
  rewrite leb_spec, ltb_spec.
  change (Prim2SF 0) with (S754_zero false).
  change (Prim2SF infinity) with (S754_infinity false).
  unfold Py.int, Py.floor.
  destruct (Prim2SF x) as [s|s| |s m e]; cbn; try discriminate;
    try reflexivity; destruct s; try discriminate.
  intros _ _. f_equal. unfold cond_Zopp. apply Z.quot_div_nonneg.
  - assert (0 < 2 ^ Z.max e 0)%Z by (apply Z.pow_pos_nonneg; lia). lia.
  - apply Z.pow_pos_nonneg; lia.
Qed.

(** Rounding keeps the sign it is given. *)
Lemma round_aux_sign s m e l :
  match binary_round_aux prec emax s m e l with
  | S754_zero s' | S754_infinity s' | S754_finite s' _ _ => s' = s
  | S754_nan => True
  end.
Proof.
  unfold binary_round_aux.
  destruct (shr_fexp prec emax m e l) as [mrs' e'].
  destruct (shr_fexp prec emax _ e' loc_Exact) as [mrs'' e''].
  destruct (shr_m mrs''); [reflexivity | | exact I].
  destruct (Z.leb e'' (emax - prec)); reflexivity.
Qed.

Lemma quot_negative sf k :
  match sf with
  | S754_zero _ => True
  | S754_finite s _ _ => s = true
  | _ => False
  end ->
  (let (p, q) := Py.ratio sf in Z.quot p q) = k -> (k <= 0)%Z.
Proof.
  destruct sf as [s|s| |s m e]; try (simpl; tauto).
  - intros _ <-. reflexivity.
  - intros -> <-. unfold Py.ratio, cond_Zopp.
    assert (0 < 2 ^ Z.max e 0)%Z by (apply Z.pow_pos_nonneg; lia).
    assert (0 < 2 ^ Z.max (- e) 0)%Z by (apply Z.pow_pos_nonneg; lia).
    rewrite Z.mul_opp_l, Z.quot_opp_l by lia.
    assert (0 <= (Z.pos m * 2 ^ Z.max e 0) ÷ 2 ^ Z.max (- e) 0)%Z
      by (apply Z.quot_pos; lia).
    lia.
Qed.

(** The integer part of a quotient of operands of opposite signs is not
    positive. *)
Lemma int_div_opposite_signs (x y : float) (k : Z) :
  ((x <? 0)%float = true /\ (0 <? y)%float = true) \/
  ((0 <=? x)%float = true /\ (y <? 0)%float = true) ->
  Py.int (x / y) = Ok k -> (k <= 0)%Z.
Proof.
  rewrite !ltb_spec, leb_spec. change (Prim2SF 0) with (S754_zero false).
  unfold Py.int. rewrite div_spec.
  intros H.
  destruct (Prim2SF x) as [sx|sx| |sx mx ex],
           (Prim2SF y) as [sy|sy| |sy my ey];
    destruct H as [[H1 H2] | [H1 H2]]; cbn in H1, H2; try discriminate;
    try (destruct sx; try discriminate); try (destruct sy; try discriminate);
    cbn; try discriminate; try (intros [= <-]; reflexivity).
  all: unfold SF64div, SFdiv;
    destruct (SFdiv_core_binary prec emax (Z.pos mx) ex (Z.pos my) ey)
      as [[mz ez] lz];
    cbn [xorb];
    pose proof (round_aux_sign true mz ez lz) as Hs;
    destruct (binary_round_aux prec emax true mz ez lz) as [s|s| |s m e];
    [ intros [= <-]; reflexivity | discriminate | discriminate
    | intros Hk; apply (quot_negative (S754_finite s m e) k Hs);
      unfold Py.ratio in *; now injection Hk ].
Qed.

(** The magnitude of a rounded value does not depend on its sign. *)
Lemma abs_round s m e :
  SFabs (binary_round prec emax s m e)
  = SFabs (binary_round prec emax false m e).
Proof.
  unfold binary_round.
  destruct (shl_align m e _) as [mz ez].
  unfold binary_round_aux.
  destruct (shr_fexp prec emax (Z.pos mz) ez loc_Exact) as [mrs' e'].
  destruct (shr_fexp prec emax _ e' loc_Exact) as [mrs'' e''].
  destruct (shr_m mrs''); [reflexivity | | reflexivity].
  destruct (Z.leb e'' (emax - prec)); reflexivity.
Qed.

Lemma abs_normalize_opp n e :
  SFabs (binary_normalize prec emax (- n) e false)
  = SFabs (binary_normalize prec emax n e false).
Proof.
  destruct n as [|p|p]; simpl; [reflexivity | | symmetry]; apply abs_round.
Qed.

(** [abs(a - b)] is [abs(b - a)], bit for bit. *)
Lemma abs_sub_swap (a b : float) : abs (a - b) = abs (b - a).
Proof.
  apply Prim2SF_inj. rewrite !abs_spec, !sub_spec.
  destruct (Prim2SF a) as [sa|sa| |sa ma ea],
           (Prim2SF b) as [sb|sb| |sb mb eb];
    try reflexivity;
    try (destruct sa, sb; reflexivity).
  unfold SF64sub, SFsub. rewrite (Z.min_comm eb ea).
  rewrite <- abs_normalize_opp. f_equal. f_equal. lia.
Qed.

End FloatFacts.

(** ** Facts on array slices *)

Module ArrayFacts.

Lemma zip_length f x y :
  length x = length y -> length (Np.zip f x y) = length x.
Proof.
  intros H. unfold Np.zip. rewrite length_map, length_combine, H.
  apply Nat.min_id.
Qed.

Lemma zip_nth f x y i d :
  length x = length y -> i < length x ->
  nth i (Np.zip f x y) d = f (nth i x d) (nth i y d).
Proof.
  intros H Hi. unfold Np.zip.
  set (g := fun p : float * float => f (fst p) (snd p)).
  rewrite (nth_indep _ d (g (d, d))).
  - rewrite map_nth, combine_nth by exact H. reflexivity.
  - rewrite length_map, length_combine. lia.
Qed.

Lemma upto_last_length z : length (Np.upto_last z) = length z - 1.
Proof.
  unfold Np.upto_last. rewrite removelast_firstn_len, length_firstn. lia.
Qed.

Lemma from1_length z : length (Np.from1 z) = length z - 1.
Proof. destruct z; simpl; lia. Qed.

Lemma from1_nth z i d : nth i (Np.from1 z) d = nth (S i) z d.
Proof. destruct z; simpl; [destruct i|]; reflexivity. Qed.

Lemma upto_last_snoc t x : Np.upto_last (t ++ [x]) = t.
Proof. apply removelast_last. Qed.

Lemma outlet_snoc t x : Np.outlet (t ++ [x]) = [x].
Proof.
  unfold Np.outlet. rewrite length_app. simpl.
  replace (length t + 1 - 1) with (length t) by lia.
  rewrite skipn_app, skipn_all, Nat.sub_diag. reflexivity.
Qed.

Lemma upto_last_nth z i d :
  i < length z - 1 -> nth i (Np.upto_last z) d = nth i z d.
Proof.
  intros Hi. destruct z as [|a z]; [simpl in Hi; lia|].
  destruct (exists_last (l := a :: z)) as [t [x E]]; [discriminate|].
  rewrite E in *. rewrite upto_last_snoc. rewrite length_app in Hi.
  simpl in Hi. rewrite app_nth1 by lia. reflexivity.
Qed.

Lemma upto_last_outlet z : Np.upto_last z ++ Np.outlet z = z.
Proof.
  destruct z as [|a z]; [reflexivity|].
  destruct (exists_last (l := a :: z)) as [t [x E]]; [discriminate|].
  rewrite E, upto_last_snoc, outlet_snoc. reflexivity.
Qed.

Lemma upto_last_app t z :
  length t = length (Np.upto_last z) ->
  Np.upto_last (t ++ Np.outlet z) = t.
Proof.
  destruct z as [|a z].
  - destruct t; [reflexivity | discriminate].
  - destruct (exists_last (l := a :: z)) as [t0 [x E]]; [discriminate|].
    rewrite E, outlet_snoc. intros _. apply upto_last_snoc.
Qed.

Lemma outlet_app t z :
  length t = length (Np.upto_last z) ->
  Np.outlet (t ++ Np.outlet z) = Np.outlet z.
Proof.
  destruct z as [|a z].
  - destruct t; [reflexivity | discriminate].
  - destruct (exists_last (l := a :: z)) as [t0 [x E]]; [discriminate|].
    rewrite E, outlet_snoc. intros _. apply outlet_snoc.
Qed.

Lemma app_outlet_length t z :
  length t = length (Np.upto_last z) -> length (t ++ Np.outlet z) = length z.
Proof.
  intros H. rewrite <- (upto_last_outlet z) at 2.
  rewrite !length_app, H. reflexivity.
Qed.

End ArrayFacts.

(** ** The loop body *)

Section StepFacts.

Variable fpow : float -> float -> float.

Import ArrayFacts.

Lemma iadd_same t rhs :
  length rhs = length t -> Np.iadd t rhs = Ok (Np.zip add t rhs).
Proof. intros H. unfold Np.iadd. rewrite H, Nat.eqb_refl. reflexivity. Qed.

Lemma iadd_scalar t r : Np.iadd t [r] = Ok (map (fun a => (a + r)%float) t).
Proof.
  unfold Np.iadd. destruct (length [r] =? length t)%nat eqn:E; [|reflexivity].
  apply Nat.eqb_eq in E. destruct t as [|a [|b t]]; try discriminate.
  reflexivity.
Qed.

Lemma iadd_raise t rhs :
  length rhs <> length t -> length rhs <> 1 ->
  Np.iadd t rhs = Raise (ValueError Broadcast).
Proof.
  intros H1 H2. unfold Np.iadd.
  apply Nat.eqb_neq in H1. rewrite H1.
  destruct rhs as [|r [|r' rhs]]; try reflexivity. now elim H2.
Qed.

Lemma iadd_length t rhs t' :
  Np.iadd t rhs = Ok t' -> length t' = length t.
Proof.
  unfold Np.iadd. destruct (length rhs =? length t)%nat eqn:E.
  - apply Nat.eqb_eq in E. intros [= <-]. now rewrite zip_length.
  - destruct rhs as [|r [|r' rhs]]; try discriminate.
    intros [= <-]. apply length_map.
Qed.

Lemma differences z :
  Np.broadcast sub (Np.from1 z) (Np.upto_last z)
  = Ok (Np.zip sub (Np.from1 z) (Np.upto_last z)).
Proof.
  unfold Np.broadcast.
  now rewrite from1_length, upto_last_length, Nat.eqb_refl.
Qed.

Lemma differences_length z :
  length (Np.zip sub (Np.from1 z) (Np.upto_last z)) = length z - 1.
Proof.
  rewrite zip_length; [apply from1_length|].
  now rewrite from1_length, upto_last_length.
Qed.

(** With [v] as long as [z], the temporary is the elementwise product. *)
Lemma erosion_same v dt dx n z :
  length v - 1 = length z - 1 ->
  erosion fpow v dt dx n z
  = Ok (Np.zip mul (map (fun x => (x * dt)%float) (Np.from1 v))
          (map (slope_power fpow dx n)
             (Np.zip sub (Np.from1 z) (Np.upto_last z)))).
Proof.
  intros H. unfold erosion. rewrite differences. unfold Np.broadcast.
  rewrite !length_map, from1_length, differences_length, H, Nat.eqb_refl.
  reflexivity.
Qed.

Lemma erosion_agree v dt dx n z :
  shapes_agree v z = true ->
  exists e, erosion fpow v dt dx n z = Ok e /\ length e = length z - 1.
Proof.
  unfold shapes_agree. intros H.
  destruct (length v - 1 =? length z - 1)%nat eqn:E.
  - apply Nat.eqb_eq in E. rewrite (erosion_same _ _ _ _ _ E).
    eexists; split; [reflexivity|].
    rewrite zip_length; rewrite !length_map, ?differences_length, ?from1_length;
      lia.
  - simpl in H. apply Nat.eqb_eq in H.
    unfold erosion. rewrite differences. unfold Np.broadcast.
    rewrite !length_map, from1_length, differences_length, E.
    rewrite <- from1_length in H.
    destruct (Np.from1 v) as [|x [|x' r]]; try discriminate. simpl.
    eexists; split; [reflexivity|].
    now rewrite !length_map, differences_length.
Qed.

Lemma erosion_disagree v dt dx n z :
  shapes_agree v z = false ->
  erosion fpow v dt dx n z = Raise (ValueError Broadcast) \/
  exists e, erosion fpow v dt dx n z = Ok e /\
            length e <> length z - 1 /\ length e <> 1.
Proof.
  unfold shapes_agree. intros H. apply orb_false_iff in H as [E1 E2].
  apply Nat.eqb_neq in E1, E2. rewrite <- (from1_length v) in E1, E2.
  rewrite <- (differences_length z) in E1 |- *.
  unfold erosion. rewrite differences. unfold Np.broadcast.
  rewrite !length_map.
  generalize dependent (Np.zip sub (Np.from1 z) (Np.upto_last z)).
  generalize dependent (Np.from1 v). intros X E2 Y E1.
  apply Nat.eqb_neq in E1 as E1'. rewrite E1'.
  destruct X as [|x [|x' X]]; [| now elim E2 |];
    destruct Y as [|y [|y' Y]]; simpl in *; auto; right;
    (eexists; split; [reflexivity|]); simpl; rewrite ?length_map; simpl; lia.
Qed.

Lemma step_run v dt dx U n s e t :
  erosion fpow v dt dx n (profile s) = Ok e ->
  Np.iadd (Np.upto_last (profile s)) e = Ok t ->
  step fpow v dt dx U n s
  = (Ok tt, mkStore (map (fun a => (a + U * dt)%float) t
                       ++ Np.outlet (profile s)) (stdout s)).
Proof.
  intros He Ht. pose proof (iadd_length _ _ _ Ht) as L.
  unfold step, iadd_upto_last, bind, get_profile, lift, set_profile.
  rewrite He, Ht. cbn [profile stdout].
  rewrite (upto_last_app _ _ L), iadd_scalar, (outlet_app _ _ L).
  reflexivity.
Qed.

Lemma step_agree v dt dx U n s :
  shapes_agree v (profile s) = true ->
  exists t, length t = length (profile s) - 1 /\
    step fpow v dt dx U n s
    = (Ok tt, mkStore (t ++ Np.outlet (profile s)) (stdout s)).
Proof.
  intros H. destruct (erosion_agree v dt dx n _ H) as [e [He Le]].
  assert (Ht : Np.iadd (Np.upto_last (profile s)) e
               = Ok (Np.zip add (Np.upto_last (profile s)) e)).
  { apply iadd_same. now rewrite upto_last_length. }
  eexists; split; [| eapply step_run; eassumption].
  rewrite length_map, zip_length; rewrite upto_last_length; auto.
Qed.

Lemma step_disagree v dt dx U n s :
  shapes_agree v (profile s) = false ->
  step fpow v dt dx U n s = (Raise (ValueError Broadcast), s).
Proof.
  intros H. unfold step, iadd_upto_last, bind, get_profile, lift.
  destruct (erosion_disagree v dt dx n _ H) as [-> | [e [-> [L1 L2]]]];
    [reflexivity|].
  rewrite iadd_raise; [reflexivity | now rewrite upto_last_length | exact L2].
Qed.

End StepFacts.

(** ** The loop and the call *)

Section CallFacts.

Variable fpow : float -> float -> float.

Import ArrayFacts.

Lemma shapes_agree_length v z z' :
  length z' = length z -> shapes_agree v z' = shapes_agree v z.
Proof. intros H. unfold shapes_agree. now rewrite H. Qed.

(** Agreeing shapes: every iteration goes through, and rewrites [z[:-1]]
    only. *)
Lemma loop_agree v dt dx U n k : forall s,
  shapes_agree v (profile s) = true ->
  exists t, length t = length (profile s) - 1 /\
    for_range k (step fpow v dt dx U n) s
    = (Ok tt, mkStore (t ++ Np.outlet (profile s)) (stdout s)).
Proof.
  induction k as [|k IH]; intros s H.
  - exists (Np.upto_last (profile s)). split; [apply upto_last_length|].
    rewrite upto_last_outlet. now destruct s.
  - destruct (step_agree fpow v dt dx U n s H) as [t1 [L1 E1]].
    rewrite <- upto_last_length in L1.
    simpl. unfold bind. rewrite E1.
    set (s1 := mkStore (t1 ++ Np.outlet (profile s)) (stdout s)).
    destruct (IH s1) as [t2 [L2 E2]].
    + simpl. rewrite (shapes_agree_length v (profile s)); [exact H|].
      now apply app_outlet_length.
    + exists t2. simpl in L2, E2. rewrite (app_outlet_length _ _ L1) in L2.
      split; [exact L2|]. rewrite E2, (outlet_app _ _ L1). reflexivity.
Qed.

(** Disagreeing shapes: the first iteration raises before it writes. *)
Lemma loop_disagree v dt dx U n k s :
  shapes_agree v (profile s) = false ->
  for_range (S k) (step fpow v dt dx U n) s
  = (Raise (ValueError Broadcast), s).
Proof.
  intros H. simpl. unfold bind. now rewrite (step_disagree fpow v dt dx U n s H).
Qed.

Lemma check_timestep_run dt k s :
  check_timestep dt k s
  = (Ok (effective_dt dt k),
     mkStore (profile s) (stdout s ++ printed dt k)).
Proof.
  unfold check_timestep, effective_dt, printed, warning.
  destruct (Py.gt_int dt k).
  - unfold bind, print, ret. simpl. now rewrite <- !app_assoc.
  - unfold ret. rewrite app_nil_r. now destruct s.
Qed.

Section Call.

Variables (z : Np.array) (dx : float) (A : Np.array).
Variables (total_time dt U K m n : float).

Let v := velocity fpow K A m.

Lemma call_analyzer_raise e :
  dt_stable dx v = Raise e ->
  call fpow z dx A total_time dt U K m n = (Raise e, mkStore z []).
Proof.
  intros H. unfold call, stream_power_erosion, bind, lift. fold v.
  now rewrite H.
Qed.

Lemma call_count_raise k e :
  dt_stable dx v = Ok k ->
  nt_iterations total_time (effective_dt dt k) = Raise e ->
  call fpow z dx A total_time dt U K m n
  = (Raise e, mkStore z (printed dt k)).
Proof.
  intros H1 H2. unfold call, stream_power_erosion, bind, lift. fold v.
  now rewrite H1, check_timestep_run, H2.
Qed.

Lemma call_loop k nt :
  dt_stable dx v = Ok k ->
  nt_iterations total_time (effective_dt dt k) = Ok nt ->
  call fpow z dx A total_time dt U K m n
  = match for_range (Z.to_nat nt) (step fpow v (effective_dt dt k) dx U n)
            (mkStore z (printed dt k)) with
    | (Ok _, s) => (Ok (profile s), s)
    | (Raise e, s) => (Raise e, s)
    end.
Proof.
  intros H1 H2. unfold call, stream_power_erosion, bind, lift. fold v.
  rewrite H1, check_timestep_run, H2. cbn [profile stdout app].
  now destruct (for_range _ _ _) as [[[]|e] s].
Qed.

(** A call either raises with the profile as it was, or returns the
    caller's array with [z[:-1]] rewritten. *)
Lemma call_cases :
  (exists e out,
     call fpow z dx A total_time dt U K m n = (Raise e, mkStore z out)) \/
  (exists t out, length t = length z - 1 /\
     call fpow z dx A total_time dt U K m n
     = (Ok (t ++ Np.outlet z), mkStore (t ++ Np.outlet z) out)).
Proof.
  destruct (dt_stable dx v) as [k|e] eqn:H1.
  2:{ left. exists e, []. now apply call_analyzer_raise. }
  destruct (nt_iterations total_time (effective_dt dt k)) as [nt|e] eqn:H2.
  2:{ left. exists e, (printed dt k). now apply call_count_raise. }
  rewrite (call_loop _ _ H1 H2).
  destruct (shapes_agree v z) eqn:S.
  - right.
    destruct (loop_agree v (effective_dt dt k) dx U n (Z.to_nat nt)
                (mkStore z (printed dt k)) S) as [t [L ->]].
    exists t, (printed dt k). split; [exact L | reflexivity].
  - destruct (Z.to_nat nt) as [|j].
    + right. exists (Np.upto_last z), (printed dt k).
      split; [apply upto_last_length|]. simpl.
      now rewrite upto_last_outlet.
    + left. rewrite loop_disagree by exact S.
      now exists (ValueError Broadcast), (printed dt k).
Qed.

End Call.

End CallFacts.

(** ** The stability analyzer at a vanishing velocity field *)

Section AnalyzerFacts.

Variable fpow : float -> float -> float.

Lemma dt_stable_nonempty dx v k : dt_stable dx v = Ok k -> v <> [].
Proof. intros H ->. discriminate. Qed.

(** With a vanishing maximum of [abs(v)] the quotient is not finite. *)
Lemma dt_stable_zero_max dx v mx :
  Py.max (map abs v) = Ok mx -> (mx =? 0)%float = true ->
  dt_stable dx v = Raise OverflowError \/
  dt_stable dx v = Raise (ValueError NanToInteger).
Proof.
  intros Hm Hz. unfold dt_stable. rewrite Hm.
  destruct (FloatFacts.eqb_zero _ Hz) as [s E].
  exact (FloatFacts.int_div_zero _ _ s E).
Qed.




End AnalyzerFacts.

(** ** The update of one step, node by node *)

Section StepUpdate.

Variable fpow : float -> float -> float.

Import ArrayFacts.

Lemma map_nth_in (g : float -> float) l i d :
  i < length l -> nth i (map g l) d = g (nth i l d).
Proof.
  intros H. rewrite (nth_indep _ d (g d)) by now rewrite length_map.
  apply map_nth.
Qed.

(** The elements of the temporary, for [v] as long as [z]. *)
Lemma erosion_nth v dt dx n z e i :
  length v = length z -> i + 1 < length z ->
  erosion fpow v dt dx n z = Ok e ->
  nth i e 0%float
  = (nth (i + 1) v 0 * dt
     * fpow (abs (nth (i + 1) z 0 - nth i z 0) / dx) n)%float.
Proof.
  intros Lv Hi. rewrite erosion_same by now rewrite Lv.
  intros [= <-]. rewrite Nat.add_1_r in *.
  assert (Ld := differences_length z).
  rewrite zip_nth;
    rewrite ?length_map, ?Ld, ?from1_length; try lia.
  rewrite !map_nth_in by (rewrite ?Ld, ?from1_length; lia).
  rewrite zip_nth by (rewrite from1_length, ?upto_last_length; lia).
  rewrite !from1_nth, upto_last_nth by lia.
  reflexivity.
Qed.

End StepUpdate.

(** C1. One integration step on a profile [z] and a drainage-area array of
    the same length succeeds, keeps the length, and maps every non-outlet
    node [i] to
    [z[i] + v[i+1]*dt*(abs(z[i+1]-z[i])/dx)**n + U*dt] with [v = -K*A**m],
    every elevation on the right-hand side being that of the profile before
    the step: the erosion term is evaluated in full before the first in-place
    addition, and the uplift is added by the second. *)
Theorem step_updates_every_inner_node
    (fpow : float -> float -> float) (z A : Np.array)
    (dt dx U K m n : float) (out : list string) :
  length A = length z ->
  exists z',
    step fpow (velocity fpow K A m) dt dx U n (mkStore z out)
    = (Ok tt, mkStore z' out) /\
    length z' = length z /\
    forall i, i + 1 < length z ->
      nth i z' 0%float
      = (nth i z 0
         + (- K * fpow (nth (i + 1) A 0) m) * dt
           * fpow (abs (nth (i + 1) z 0 - nth i z 0) / dx) n
         + U * dt)%float.
Proof.
  intros LA.
  assert (Lv : length (velocity fpow K A m) = length z)
    by (unfold velocity; now rewrite length_map).
  set (v := velocity fpow K A m) in *.
  destruct (erosion_agree fpow v dt dx n z) as [e [He Le]].
  { unfold shapes_agree. now rewrite Lv, Nat.eqb_refl. }
  assert (Ht : Np.iadd (Np.upto_last z) e = Ok (Np.zip add (Np.upto_last z) e)).
  { apply iadd_same. now rewrite ArrayFacts.upto_last_length. }
  assert (Lt : length (Np.zip add (Np.upto_last z) e) = length z - 1).
  { rewrite ArrayFacts.zip_length; rewrite ArrayFacts.upto_last_length; auto. }
  eexists. split; [| split].
  - exact (step_run fpow v dt dx U n (mkStore z out) e _ He Ht).
  - rewrite ArrayFacts.app_outlet_length; [reflexivity|].
    now rewrite length_map, Lt, ArrayFacts.upto_last_length.
  - intros i Hi.
    rewrite app_nth1 by (rewrite length_map, Lt; lia).
    rewrite map_nth_in by (rewrite Lt; lia).
    rewrite ArrayFacts.zip_nth
      by (rewrite ArrayFacts.upto_last_length; lia).
    rewrite ArrayFacts.upto_last_nth by lia.
    rewrite (erosion_nth fpow v dt dx n z e i Lv Hi He).
    unfold v, velocity. rewrite map_nth_in by lia. reflexivity.
Qed.

Lemma step_updates_every_inner_node_witness :
  length Demo.A3 = length Demo.z3 /\
  exists z',
    step pow_fastpath (velocity pow_fastpath Demo.K Demo.A3 0.5)
         50 50 Demo.U 1 (mkStore Demo.z3 [])
    = (Ok tt, mkStore z' []) /\
    length z' = length Demo.z3 /\
    forall i, i + 1 < length Demo.z3 ->
      nth i z' 0%float
      = (nth i Demo.z3 0
         + (- Demo.K * pow_fastpath (nth (i + 1) Demo.A3 0) 0.5) * 50
           * pow_fastpath (abs (nth (i + 1) Demo.z3 0 - nth i Demo.z3 0) / 50) 1
         + Demo.U * 50)%float.
Proof.
  split; [reflexivity|].
  apply (step_updates_every_inner_node pow_fastpath Demo.z3 Demo.A3
           50 50 Demo.U Demo.K 0.5 1 []).
  reflexivity.
Defined.

(** ** The outlet *)

Lemma outlet_nth t z (d : float) :
  length t = length z - 1 ->
  nth (length z - 1) (t ++ Np.outlet z) d = nth (length z - 1) z d.
Proof.
  intros L.
  transitivity (nth (length z - 1) (Np.upto_last z ++ Np.outlet z) d);
    [| now rewrite ArrayFacts.upto_last_outlet].
  rewrite !app_nth2; rewrite ?ArrayFacts.upto_last_length, ?L; auto.
Qed.

(** C3. Whatever the inputs, the caller's array has after the call the
    length it had and, at its last index, the elevation it had; what the call
    returns, when it returns, is that array.  The same holds of the array
    after any number of iterations of the loop body, for any velocity field
    and timestep: no step writes the outlet. *)
Theorem outlet_is_invariant
    (fpow : float -> float -> float) (z : Np.array) (dx : float)
    (A : Np.array) (total_time dt U K m n d : float) :
  (exists r s,
     call fpow z dx A total_time dt U K m n = (r, s) /\
     length (profile s) = length z /\
     nth (length z - 1) (profile s) d = nth (length z - 1) z d /\
     (r = Ok (profile s) \/ exists e, r = Raise e)) /\
  (forall v dt' j out,
     let s := snd (for_range j (step fpow v dt' dx U n) (mkStore z out)) in
     length (profile s) = length z /\
     nth (length z - 1) (profile s) d = nth (length z - 1) z d).
Proof.
  split.
  - destruct (call_cases fpow z dx A total_time dt U K m n)
      as [[e [out ->]] | [t [out [L ->]]]].
    + do 2 eexists. split; [reflexivity|]. simpl. eauto.
    + do 2 eexists. split; [reflexivity|]. simpl.
      rewrite ArrayFacts.app_outlet_length
        by now rewrite ArrayFacts.upto_last_length.
      rewrite outlet_nth by exact L. auto.
  - intros v dt' j out.
    destruct (shapes_agree v z) eqn:S.
    + destruct (loop_agree fpow v dt' dx U n j (mkStore z out) S)
        as [t [L E]].
      simpl in *. rewrite E. simpl.
      rewrite ArrayFacts.app_outlet_length
        by now rewrite ArrayFacts.upto_last_length.
      rewrite outlet_nth by exact L. auto.
    + destruct j as [|j]; [simpl; auto|].
      rewrite loop_disagree by exact S. simpl. auto.
Qed.

(** C10. On a profile of a single node, the outlet, a call that returns
    returns the profile as it was, and leaves the caller's array as it was,
    for every total time and every parameter. *)
Theorem single_node_profile_is_unchanged
    (fpow : float -> float -> float) (z : Np.array) (dx : float)
    (A : Np.array) (total_time dt U K m n : float)
    (z' : Np.array) (s : store) :
  length z = 1 ->
  call fpow z dx A total_time dt U K m n = (Ok z', s) ->
  z' = z /\ profile s = z.
Proof.
  intros L H.
  destruct (call_cases fpow z dx A total_time dt U K m n)
    as [[e [out E]] | [t [out [Lt E]]]]; rewrite E in H; [discriminate|].
  rewrite L in Lt. destruct t; [|discriminate].
  destruct z as [|x [|y z]]; try discriminate.
  injection H as <- <-. split; reflexivity.
Qed.

Lemma single_node_profile_is_unchanged_witness :
  length Demo.z1 = 1 /\
  call pow_fastpath Demo.z1 50 Demo.A1 10000 50 Demo.U Demo.K 1 1
  = (Ok Demo.z1, mkStore Demo.z1 []) /\
  (Demo.z1 = Demo.z1 /\ profile (mkStore Demo.z1 []) = Demo.z1).
Proof.
  split; [reflexivity|]. split; [vm_compute; reflexivity|].
  apply (single_node_profile_is_unchanged pow_fastpath Demo.z1 50 Demo.A1
           10000 50 Demo.U Demo.K 1 1).
  - reflexivity.
  - vm_compute. reflexivity.
Defined.

(** ** Iteration counts that run no step *)

Section NoIteration.

Variable fpow : float -> float -> float.

Lemma nt_iterations_zero_time total_time dt :
  (total_time =? 0)%float = true -> (dt =? 0)%float = false ->
  is_nan dt = false ->
  nt_iterations total_time dt = Ok 0%Z.
Proof.
  intros H0 Hd Hn. unfold nt_iterations, Py.truediv. rewrite Hd.
  now apply FloatFacts.int_zero_div.
Qed.

Lemma call_without_iteration z dx A total_time dt U K m n k nt :
  dt_stable dx (velocity fpow K A m) = Ok k ->
  nt_iterations total_time (effective_dt dt k) = Ok nt ->
  (nt <= 0)%Z ->
  call fpow z dx A total_time dt U K m n
  = (Ok z, mkStore z (printed dt k)).
Proof.
  intros H1 H2 Hnt. rewrite (call_loop fpow z dx A total_time dt U K m n k nt H1 H2).
  replace (Z.to_nat nt) with 0 by lia. reflexivity.
Qed.

End NoIteration.

(** The no-op law where the iteration count is computed: when the analyzer
    has settled the timestep and the total time is a zero (the timestep being
    neither zero nor NaN), or more generally when the iteration count
    [int(total_time/dt)] comes out as 0, the call returns the input profile,
    unchanged at every node. *)
Theorem zero_iterations_return_input
    (fpow : float -> float -> float) (z : Np.array) (dx : float)
    (A : Np.array) (total_time dt U K m n : float) (k : Z) :
  dt_stable dx (velocity fpow K A m) = Ok k ->
  ((total_time =? 0)%float = true /\
   (effective_dt dt k =? 0)%float = false /\
   is_nan (effective_dt dt k) = false)
  \/ nt_iterations total_time (effective_dt dt k) = Ok 0%Z ->
  call fpow z dx A total_time dt U K m n
  = (Ok z, mkStore z (printed dt k)).
Proof.
  intros H1 H2.
  assert (H : nt_iterations total_time (effective_dt dt k) = Ok 0%Z).
  { destruct H2 as [[H0 [Hd Hn]] | H]; [| exact H].
    now apply nt_iterations_zero_time. }
  apply (call_without_iteration fpow z dx A total_time dt U K m n k 0 H1 H).
  lia.
Qed.

Lemma zero_iterations_return_input_witness :
  dt_stable 50 (velocity pow_fastpath Demo.K Demo.A3 0.5) = Ok 15833%Z /\
  (((0 =? 0)%float = true /\
    (effective_dt 50 15833 =? 0)%float = false /\
    is_nan (effective_dt 50 15833) = false)
   \/ nt_iterations 0 (effective_dt 50 15833) = Ok 0%Z) /\
  call pow_fastpath Demo.z3 50 Demo.A3 0 50 Demo.U Demo.K 0.5 1
  = (Ok Demo.z3, mkStore Demo.z3 (printed 50 15833)).
Proof.
  assert (H1 : dt_stable 50 (velocity pow_fastpath Demo.K Demo.A3 0.5)
               = Ok 15833%Z) by (vm_compute; reflexivity).
  assert (H2 : ((0 =? 0)%float = true /\
                (effective_dt 50 15833 =? 0)%float = false /\
                is_nan (effective_dt 50 15833) = false)
               \/ nt_iterations 0 (effective_dt 50 15833) = Ok 0%Z)
    by (left; repeat split; vm_compute; reflexivity).
  split; [exact H1|]. split; [exact H2|].
  exact (zero_iterations_return_input pow_fastpath Demo.z3 50 Demo.A3 0 50
           Demo.U Demo.K 0.5 1 15833 H1 H2).
Defined.

(** C4 on an input whose stable timestep truncates to zero: the total time
    is 0 and every parameter is positive, but the requested timestep 50
    exceeds the bound 0.95, the timestep is set to 0 and the division
    [total_time/dt] raises [ZeroDivisionError]: no iteration count is
    computed and the call does not return the input profile. *)
Theorem zero_time_with_clamp_to_zero_aborts :
  (0 =? 0)%float = true /\
  dt_stable 1 (velocity pow_fastpath 1 Demo.ones2 1) = Ok 0%Z /\
  Py.gt_int 50 0 = true /\
  nt_iterations 0 (effective_dt 50 0) = Raise ZeroDivisionError /\
  call pow_fastpath Demo.zeros2 1 Demo.ones2 0 50 Demo.U 1 1 1
  = (Raise ZeroDivisionError, mkStore Demo.zeros2 (warning 0)).
Proof. repeat split; vm_compute; reflexivity. Qed.

(** C7, as the code has it.  Whenever the iteration count
    [int(total_time/dt)] is computed and is zero or negative, the call
    returns the input profile unmodified: [range] of such a count is empty
    and no step runs.  The count is such whenever it is computed from a
    negative total time and a positive timestep, or from a total time that is
    not negative and a negative timestep. *)
Theorem nonpositive_count_returns_input
    (fpow : float -> float -> float) (z : Np.array) (dx : float)
    (A : Np.array) (total_time dt U K m n : float) (k nt : Z) :
  dt_stable dx (velocity fpow K A m) = Ok k ->
  nt_iterations total_time (effective_dt dt k) = Ok nt ->
  ((total_time <? 0)%float = true /\ (0 <? effective_dt dt k)%float = true) \/
  ((0 <=? total_time)%float = true /\ (effective_dt dt k <? 0)%float = true) \/
  (nt <= 0)%Z ->
  call fpow z dx A total_time dt U K m n
  = (Ok z, mkStore z (printed dt k)).
Proof.
  intros H1 H2 H3.
  apply (call_without_iteration fpow z dx A total_time dt U K m n k nt H1 H2).
  assert (S : ((total_time <? 0)%float = true /\
               (0 <? effective_dt dt k)%float = true) \/
              ((0 <=? total_time)%float = true /\
               (effective_dt dt k <? 0)%float = true) -> (nt <= 0)%Z).
  { intros S. unfold nt_iterations, Py.truediv in H2.
    destruct (effective_dt dt k =? 0)%float; [discriminate|].
    exact (FloatFacts.int_div_opposite_signs _ _ nt S H2). }
  destruct H3 as [H3 | [H3 | H3]]; auto.
Qed.

Lemma nonpositive_count_returns_input_witness :
  dt_stable 50 (velocity pow_fastpath Demo.K Demo.A3 0.5) = Ok 15833%Z /\
  nt_iterations (-100) (effective_dt 50 15833) = Ok (-2)%Z /\
  (((-100 <? 0)%float = true /\ (0 <? effective_dt 50 15833)%float = true) \/
   ((0 <=? -100)%float = true /\ (effective_dt 50 15833 <? 0)%float = true) \/
   (-2 <= 0)%Z) /\
  call pow_fastpath Demo.z3 50 Demo.A3 (-100) 50 Demo.U Demo.K 0.5 1
  = (Ok Demo.z3, mkStore Demo.z3 (printed 50 15833)).
Proof.
  assert (H1 : dt_stable 50 (velocity pow_fastpath Demo.K Demo.A3 0.5)
               = Ok 15833%Z) by (vm_compute; reflexivity).
  assert (H2 : nt_iterations (-100) (effective_dt 50 15833) = Ok (-2)%Z)
    by (vm_compute; reflexivity).
  assert (H3 : ((-100 <? 0)%float = true /\
                (0 <? effective_dt 50 15833)%float = true) \/
               ((0 <=? -100)%float = true /\
                (effective_dt 50 15833 <? 0)%float = true) \/
               (-2 <= 0)%Z)
    by (left; split; vm_compute; reflexivity).
  refine (conj H1 (conj H2 (conj H3 _))).
  exact (nonpositive_count_returns_input pow_fastpath Demo.z3 50 Demo.A3
           (-100) 50 Demo.U Demo.K 0.5 1 15833 (-2) H1 H2 H3).
Defined.

(** C7 as stated fails: at the timestep -50 and the total time -100 the
    iteration count is 2, two steps run and the first node ends below the
    elevation it had. *)
Lemma negative_dt_and_time_run_steps :
  (-50 <=? 0)%float = true /\ (-100 <? 0)%float = true /\
  nt_iterations (-100) (-50) = Ok 2%Z /\
  exists z',
    call pow_fastpath Demo.zeros2 50 Demo.ones2 (-100) (-50)
         Demo.U Demo.K 1 1
    = (Ok z', mkStore z' []) /\
    (nth 0 z' 0 <? nth 0 Demo.zeros2 0)%float = true.
Proof.
  split; [reflexivity|]. split; [reflexivity|].
  split; [vm_compute; reflexivity|].
  eexists. split; [vm_compute; reflexivity | reflexivity].
Qed.

(** ** Arrays of different lengths *)

(** C8, as the code has it.  No shape is looked at before the stability
    analyzer: it runs first, and the warning, if any, is printed.  For a
    profile of at least one node and a drainage-area array of another length
    that is not 2, once the analyzer and the iteration count have gone
    through and at least one iteration is due, the first iteration raises
    NumPy's broadcasting [ValueError] before it writes: the profile is left
    as it was. *)
Theorem mismatched_lengths_fail_in_first_step
    (fpow : float -> float -> float) (z : Np.array) (dx : float)
    (A : Np.array) (total_time dt U K m n : float) (k nt : Z) :
  length A <> length z -> 1 <= length z -> length A <> 2 ->
  dt_stable dx (velocity fpow K A m) = Ok k ->
  nt_iterations total_time (effective_dt dt k) = Ok nt ->
  (1 <= nt)%Z ->
  call fpow z dx A total_time dt U K m n
  = (Raise (ValueError Broadcast), mkStore z (printed dt k)).
Proof.
  intros Hne Hz HA H1 H2 Hnt.
  rewrite (call_loop fpow z dx A total_time dt U K m n k nt H1 H2).
  assert (LA : 1 <= length A).
  { pose proof (dt_stable_nonempty _ _ _ H1) as Hv.
    destruct A; [now elim Hv | simpl; lia]. }
  assert (S : shapes_agree (velocity fpow K A m) z = false).
  { unfold shapes_agree, velocity. rewrite length_map.
    apply orb_false_iff. split; apply Nat.eqb_neq; lia. }
  destruct (Z.to_nat nt) as [|j] eqn:E; [lia|].
  now rewrite loop_disagree.
Qed.

Lemma mismatched_lengths_fail_in_first_step_witness :
  length Demo.A3 <> length Demo.zeros2 /\ 1 <= length Demo.zeros2 /\
  length Demo.A3 <> 2 /\
  dt_stable 50 (velocity pow_fastpath Demo.K Demo.A3 0.5) = Ok 15833%Z /\
  nt_iterations 100 (effective_dt 50 15833) = Ok 2%Z /\
  (1 <= 2)%Z /\
  call pow_fastpath Demo.zeros2 50 Demo.A3 100 50 Demo.U Demo.K 0.5 1
  = (Raise (ValueError Broadcast), mkStore Demo.zeros2 (printed 50 15833)).
Proof.
  assert (H0 : length Demo.A3 <> length Demo.zeros2) by (simpl; lia).
  assert (H0' : 1 <= length Demo.zeros2) by (simpl; lia).
  assert (H0'' : length Demo.A3 <> 2) by (simpl; lia).
  assert (H1 : dt_stable 50 (velocity pow_fastpath Demo.K Demo.A3 0.5)
               = Ok 15833%Z) by (vm_compute; reflexivity).
  assert (H2 : nt_iterations 100 (effective_dt 50 15833) = Ok 2%Z)
    by (vm_compute; reflexivity).
  assert (H3 : (1 <= 2)%Z) by lia.
  refine (conj H0 (conj H0' (conj H0'' (conj H1 (conj H2 (conj H3 _)))))).
  exact (mismatched_lengths_fail_in_first_step pow_fastpath Demo.zeros2 50
           Demo.A3 100 50 Demo.U Demo.K 0.5 1 15833 2 H0 H0' H0'' H1 H2 H3).
Defined.

(** C8 as stated fails: with three nodes and two drainage areas [v[1:]] has
    length 1 and is stretched over the profile; the call raises nothing and
    returns a profile. *)
Lemma stretched_velocity_completes :
  length Demo.ones2 <> length Demo.zeros3 /\
  exists z',
    call pow_fastpath Demo.zeros3 50 Demo.ones2 100 50 Demo.U Demo.K 1 1
    = (Ok z', mkStore z' []).
Proof.
  split; [simpl; lia|]. eexists. vm_compute. reflexivity.
Qed.

(** Every call that raises leaves the caller's array as it was. *)
Lemma raise_leaves_profile
    (fpow : float -> float -> float) (z : Np.array) (dx : float)
    (A : Np.array) (total_time dt U K m n : float) (e : exn) (s : store) :
  call fpow z dx A total_time dt U K m n = (Raise e, s) -> profile s = z.
Proof.
  intros H.
  destruct (call_cases fpow z dx A total_time dt U K m n)
    as [[e' [out E]] | [t [out [_ E]]]]; rewrite E in H.
  - now injection H as _ <-.
  - discriminate.
Qed.

(** ** Vanishing velocities *)

(** C5. When the maximum of [abs(v)] is exactly zero, the quotient
    [0.95*dx/max(abs(v))] is an infinity or NaN and [int] refuses it: the
    call raises ([OverflowError] for an infinity, [ValueError] for NaN) to
    its caller, with nothing printed and the profile as it was; no stable
    timestep is bound and no step runs. *)
Theorem zero_velocity_raises
    (fpow : float -> float -> float) (z : Np.array) (dx : float)
    (A : Np.array) (total_time dt U K m n mx : float) :
  Py.max (map abs (velocity fpow K A m)) = Ok mx ->
  (mx =? 0)%float = true ->
  call fpow z dx A total_time dt U K m n
  = (Raise OverflowError, mkStore z []) \/
  call fpow z dx A total_time dt U K m n
  = (Raise (ValueError NanToInteger), mkStore z []).
Proof.
  intros Hm Hz.
  destruct (dt_stable_zero_max dx _ mx Hm Hz) as [E | E];
    [left | right]; now apply call_analyzer_raise.
Qed.

Lemma zero_velocity_raises_witness :
  Py.max (map abs (velocity pow_fastpath Demo.K Demo.zeros3 0.5)) = Ok 0%float /\
  (0 =? 0)%float = true /\
  (call pow_fastpath Demo.z3 50 Demo.zeros3 10000 50 Demo.U Demo.K 0.5 1
   = (Raise OverflowError, mkStore Demo.z3 []) \/
   call pow_fastpath Demo.z3 50 Demo.zeros3 10000 50 Demo.U Demo.K 0.5 1
   = (Raise (ValueError NanToInteger), mkStore Demo.z3 [])).
Proof.
  assert (H1 : Py.max (map abs (velocity pow_fastpath Demo.K Demo.zeros3 0.5))
               = Ok 0%float) by (vm_compute; reflexivity).
  assert (H2 : (0 =? 0)%float = true) by reflexivity.
  refine (conj H1 (conj H2 _)).
  exact (zero_velocity_raises pow_fastpath Demo.z3 50 Demo.zeros3 10000 50
           Demo.U Demo.K 0.5 1 0 H1 H2).
Defined.




(** ** The sign of the slope *)

(** C9. In every step and at every non-outlet node [i], the erosion term
    reads the two elevations through [abs(z[i+1]-z[i])] only: on a profile
    whose difference at [i] is the negation of that of [z], and on one that
    has the two elevations of [z] exchanged, the term at [i] is exactly the
    same. *)
Theorem erosion_ignores_slope_sign
    (fpow : float -> float -> float) (v : Np.array) (dt dx n : float)
    (z w : Np.array) (i : nat) :
  length v = length z -> length w = length z -> i + 1 < length z ->
  (nth (i + 1) w 0 - nth i w 0)%float
  = (- (nth (i + 1) z 0 - nth i z 0))%float
  \/ (nth (i + 1) w 0%float = nth i z 0%float /\
      nth i w 0%float = nth (i + 1) z 0%float) ->
  exists e e',
    erosion fpow v dt dx n z = Ok e /\
    erosion fpow v dt dx n w = Ok e' /\
    nth i e' 0%float = nth i e 0%float.
Proof.
  intros Lv Lw Hi Hd.
  destruct (erosion_agree fpow v dt dx n z) as [e [He _]].
  { unfold shapes_agree. now rewrite Lv, Nat.eqb_refl. }
  destruct (erosion_agree fpow v dt dx n w) as [e' [He' _]].
  { unfold shapes_agree. now rewrite Lv, Lw, Nat.eqb_refl. }
  exists e, e'. split; [exact He|]. split; [exact He'|].
  rewrite (erosion_nth fpow v dt dx n z e i Lv Hi He).
  rewrite (erosion_nth fpow v dt dx n w e' i); try assumption; try lia.
  destruct Hd as [Hd | [Hd1 Hd2]].
  - now rewrite Hd, FloatFacts.abs_opp.
  - now rewrite Hd1, Hd2, FloatFacts.abs_sub_swap.
Qed.

Lemma erosion_ignores_slope_sign_witness :
  length Demo.ones2 = length Demo.z2 /\
  length Demo.w2 = length Demo.z2 /\
  0 + 1 < length Demo.z2 /\
  ((nth (0 + 1) Demo.w2 0 - nth 0 Demo.w2 0)%float
   = (- (nth (0 + 1) Demo.z2 0 - nth 0 Demo.z2 0))%float
   \/ (nth (0 + 1) Demo.w2 0%float = nth 0 Demo.z2 0%float /\
       nth 0 Demo.w2 0%float = nth (0 + 1) Demo.z2 0%float)) /\
  exists e e',
    erosion pow_fastpath Demo.ones2 50 50 1 Demo.z2 = Ok e /\
    erosion pow_fastpath Demo.ones2 50 50 1 Demo.w2 = Ok e' /\
    nth 0 e' 0%float = nth 0 e 0%float.
Proof.
  assert (H1 : length Demo.ones2 = length Demo.z2) by reflexivity.
  assert (H2 : length Demo.w2 = length Demo.z2) by reflexivity.
  assert (H3 : 0 + 1 < length Demo.z2) by (simpl; lia).
  assert (H4 : (nth (0 + 1) Demo.w2 0 - nth 0 Demo.w2 0)%float
               = (- (nth (0 + 1) Demo.z2 0 - nth 0 Demo.z2 0))%float
               \/ (nth (0 + 1) Demo.w2 0%float = nth 0 Demo.z2 0%float /\
                   nth 0 Demo.w2 0%float = nth (0 + 1) Demo.z2 0%float))
    by (left; reflexivity).
  refine (conj H1 (conj H2 (conj H3 (conj H4 _)))).
  exact (erosion_ignores_slope_sign pow_fastpath Demo.ones2 50 50 1
           Demo.z2 Demo.w2 0 H1 H2 H3 H4).
Defined.

(** ** The clamped timestep *)

(** When the requested timestep exceeds the integer [k] bound to
    [dt_stable], the loop runs with [k] itself and the warning names it; if
    the iteration count is then computed and the shapes agree, the call
    completes. *)
Lemma clamped_call
    (fpow : float -> float -> float) (z : Np.array) (dx : float)
    (A : Np.array) (total_time dt U K m n : float) (k : Z) :
  dt_stable dx (velocity fpow K A m) = Ok k ->
  Py.gt_int dt k = true ->
  effective_dt dt k = Py.float_of_int k /\
  printed dt k = warning k /\
  forall nt,
    nt_iterations total_time (Py.float_of_int k) = Ok nt ->
    shapes_agree (velocity fpow K A m) z = true ->
    exists t, length t = length z - 1 /\
      call fpow z dx A total_time dt U K m n
      = (Ok (t ++ Np.outlet z), mkStore (t ++ Np.outlet z) (warning k)).
Proof.
  intros H1 Hgt.
  assert (E1 : effective_dt dt k = Py.float_of_int k)
    by (unfold effective_dt; now rewrite Hgt).
  assert (E2 : printed dt k = warning k)
    by (unfold printed; now rewrite Hgt).
  split; [exact E1|]. split; [exact E2|].
  intros nt H2 S. rewrite <- E1 in H2.
  rewrite (call_loop fpow z dx A total_time dt U K m n k nt H1 H2).
  destruct (loop_agree fpow (velocity fpow K A m) (effective_dt dt k) dx U n
              (Z.to_nat nt) (mkStore z (printed dt k)) S) as [t [L ->]].
  exists t. split; [exact L|]. simpl. now rewrite E2.
Qed.

(** C2 on an input whose stable timestep truncates to zero: the requested
    timestep 50 exceeds the bound 0.95, the warning is printed with the
    substituted value 0, and the division [total_time/dt] then raises
    [ZeroDivisionError]: the call aborts, with no iteration count. *)
Theorem clamp_to_zero_aborts :
  (c095 * 1 / 1 <? 50)%float = true /\
  dt_stable 1 (velocity pow_fastpath 1 Demo.ones2 1) = Ok 0%Z /\
  Py.floor (c095 * 1 / 1) = 0%Z /\
  call pow_fastpath Demo.zeros2 1 Demo.ones2 100 50 Demo.U 1 1 1
  = (Raise ZeroDivisionError, mkStore Demo.zeros2 (warning 0)).
Proof. repeat split; vm_compute; reflexivity. Qed.

(** * Further properties of the routine *)

(** ** More facts on binary64 values *)

Module FloatBounds.

(** [is_nan] holds of NaN only. *)
Lemma is_nan_spec (x : float) : is_nan x = true -> Prim2SF x = S754_nan.
Proof.
  unfold is_nan. rewrite eqb_spec. unfold SFeqb.
  destruct (Prim2SF x) as [s|s| |s m e]; cbn; try reflexivity;
    try (destruct s; discriminate).
  destruct s; rewrite Z.compare_refl, Pos.compare_cont_refl; discriminate.
Qed.

Lemma digits2_bound (m : positive) :
  (Z.pos m < 2 ^ Z.pos (digits2_pos m))%Z.
Proof.
  induction m as [p IH|p IH|]; simpl digits2_pos;
    rewrite ?Pos2Z.inj_succ, ?Z.pow_succ_r by lia; lia.
Qed.

(** A value at least 0 and below 1 truncates to 0. *)
Lemma int_below_one (q : float) :
  (0 <=? q)%float = true -> (q <? 1)%float = true -> Py.int q = Ok 0%Z.
Proof.
  rewrite leb_spec, ltb_spec.
  change (Prim2SF 0) with (S754_zero false).
  change (Prim2SF 1) with (S754_finite false 4503599627370496 (-52)).
  pose proof (Prim2SF_valid q) as V. unfold Py.int.
  destruct (Prim2SF q) as [s|s| |s m e].
  - reflexivity.
  - intros H0 H. destruct s; [discriminate H0 | discriminate H].
  - discriminate.
  - intros H0 H. destruct s; [discriminate H0|].
    unfold Py.ratio, cond_Zopp. f_equal.
    simpl valid_binary in V. unfold bounded, canonical_mantissa, fexp in V.
    apply andb_prop in V as [V _]. apply Z.eqb_eq in V.
    pose proof (digits2_bound m) as D.
    assert (Dm : (Z.pos (digits2_pos m) <= 53)%Z).
    { change prec with 53%Z in V. lia. }
    assert (M : (Z.pos m < 2 ^ 53)%Z).
    { eapply Z.lt_le_trans; [exact D|]. apply Z.pow_le_mono_r; lia. }
    unfold SFltb, SFcompare in H.
    destruct (Z.compare_spec e (-52)) as [E|E|E]; try discriminate H.
    + subst e.
      assert (L : (Z.pos m < 4503599627370496)%Z).
      { rewrite Pos.compare_cont_spec in H.
        destruct (Pos.compare_spec m 4503599627370496) as [C|C|C];
          try discriminate H.
        exact C. }
      apply Z.quot_small.
      change (Z.max (-52) 0) with 0%Z. change (Z.max (- -52) 0) with 52%Z.
      change (2 ^ 0)%Z with 1%Z. change (2 ^ 52)%Z with 4503599627370496%Z.
      clear - L. lia.
    + clear - M E. rewrite Z.max_r, Z.max_l by lia. apply Z.quot_small.
      rewrite Z.pow_0_r, Z.mul_1_r. split; [lia|].
      eapply Z.lt_le_trans; [exact M|]. apply Z.pow_le_mono_r; lia.
Qed.

Lemma gt_int_zero (dt : float) :
  (0 <? dt)%float = true -> Py.gt_int dt 0 = true.
Proof.
  rewrite ltb_spec. change (Prim2SF 0) with (S754_zero false).
  unfold Py.gt_int.
  destruct (Prim2SF dt) as [s|s| |s m e]; cbn; try discriminate;
    destruct s; try discriminate; try reflexivity.
  intros _. apply Z.ltb_lt. unfold cond_Zopp.
  assert (0 < 2 ^ Z.max e 0)%Z by (apply Z.pow_pos_nonneg; lia).
  apply Z.mul_pos_pos; lia.
Qed.

(** [max] returns one of the elements. *)
Lemma max_in xs mx : Py.max xs = Ok mx -> In mx xs.
Proof.
  destruct xs as [|x rest]; [discriminate|]. simpl. intros [= <-].
  revert x. induction rest as [|y rest IH]; intros x; simpl; [auto|].
  destruct (IH (if (x <? y)%float then y else x)) as [H|H]; [|auto].
  destruct (x <? y)%float; rewrite <- H; auto.
Qed.

(** Truncation of a value that is not negative. *)
Lemma quot_nonneg m e :
  (0 <= (Z.pos m * 2 ^ Z.max e 0) ÷ 2 ^ Z.max (- e) 0)%Z.
Proof.
  assert (0 < 2 ^ Z.max e 0)%Z by (apply Z.pow_pos_nonneg; lia).
  assert (0 < 2 ^ Z.max (- e) 0)%Z by (apply Z.pow_pos_nonneg; lia).
  apply Z.quot_pos; [apply Z.mul_nonneg_nonneg; lia | lia].
Qed.

Lemma int_nonneg (q : float) (k : Z) :
  match Prim2SF q with
  | S754_zero _ | S754_nan => True
  | S754_infinity s | S754_finite s _ _ => s = false
  end ->
  Py.int q = Ok k -> (0 <= k)%Z.
Proof.
  unfold Py.int. destruct (Prim2SF q) as [s|s| |s m e]; try discriminate.
  - intros _ [= <-]. reflexivity.
  - intros -> [= <-]. exact (quot_nonneg m e).
Qed.

(** The quotient of the analyzer is not negative when [dx] is positive. *)
Lemma quotient_sign (dx y : float) :
  (0 <? dx)%float = true ->
  match Prim2SF (c095 * dx / abs y) with
  | S754_zero _ | S754_nan => True
  | S754_infinity s | S754_finite s _ _ => s = false
  end.
Proof.
  rewrite ltb_spec. change (Prim2SF 0) with (S754_zero false).
  rewrite div_spec, mul_spec, abs_spec.
  change (Prim2SF c095) with (S754_finite false 8556839292003942 (-53)).
  intros H.
  assert (N : match SF64mul (S754_finite false 8556839292003942 (-53)) (Prim2SF dx) with
              | S754_zero s | S754_infinity s | S754_finite s _ _ => s = false
              | S754_nan => True end).
  { destruct (Prim2SF dx) as [s|s| |s m e]; cbn in H; try discriminate;
      destruct s; try discriminate; [reflexivity|].
    unfold SF64mul, SFmul. cbn [xorb].
    apply (FloatFacts.round_aux_sign false). }
  destruct (SF64mul _ (Prim2SF dx)) as [s|s| |s m e];
    destruct (Prim2SF y) as [sy|sy| |sy my ey];
    try exact I; try (subst s; reflexivity).
  subst s. unfold SF64div, SFdiv, SFabs.
  destruct (SFdiv_core_binary prec emax (Z.pos m) e (Z.pos my) ey)
    as [[mz ez] lz].
  cbn [xorb].
  pose proof (FloatFacts.round_aux_sign false mz ez lz) as Hs.
  now destruct (binary_round_aux prec emax false mz ez lz).
Qed.

(** A value that is not positive exceeds no integer from 0 on. *)
Lemma gt_int_nonpos (dt : float) (k : Z) :
  (dt <=? 0)%float = true -> (0 <= k)%Z -> Py.gt_int dt k = false.
Proof.
  rewrite leb_spec. change (Prim2SF 0) with (S754_zero false).
  unfold Py.gt_int.
  destruct (Prim2SF dt) as [s|s| |s m e]; intros H Hk.
  - unfold Py.ratio. apply Z.ltb_ge. lia.
  - destruct s; [reflexivity | discriminate H].
  - reflexivity.
  - destruct s; [|discriminate H]. unfold Py.ratio, cond_Zopp.
    apply Z.ltb_ge.
    assert (0 < 2 ^ Z.max e 0)%Z by (apply Z.pow_pos_nonneg; lia).
    assert (0 < 2 ^ Z.max (- e) 0)%Z by (apply Z.pow_pos_nonneg; lia).
    apply Z.le_trans with 0%Z;
      [apply Z.mul_nonpos_nonneg; lia | apply Z.mul_nonneg_nonneg; lia].
Qed.

(** [floor q <= q < floor q + 1], on the exact fraction. *)
Lemma floor_sandwich (q : float) :
  let (p, d) := Py.ratio (Prim2SF q) in
  (0 < d /\ Py.floor q * d <= p < (Py.floor q + 1) * d)%Z.
Proof.
  unfold Py.floor. destruct (Py.ratio (Prim2SF q)) as [p d] eqn:E.
  assert (0 < d)%Z.
  { unfold Py.ratio in E.
    destruct (Prim2SF q); injection E as <- <-;
      solve [lia | apply Z.pow_pos_nonneg; lia]. }
  split; [assumption|]. split.
  - rewrite Z.mul_comm. apply Z.mul_div_le. assumption.
  - rewrite Z.mul_comm. apply Z.mul_succ_div_gt. assumption.
Qed.

(** [max] keeps a leading NaN and skips a later one. *)
Lemma max_nan_first x rest :
  Prim2SF x = S754_nan -> Py.max (x :: rest) = Ok x.
Proof.
  intros E. simpl. f_equal. induction rest as [|y rest IH]; [reflexivity|].
  simpl. rewrite ltb_spec, E. exact IH.
Qed.

Lemma max_skips_nan x l1 y l2 :
  Prim2SF y = S754_nan ->
  Py.max (x :: l1 ++ y :: l2) = Py.max (x :: l1 ++ l2).
Proof.
  intros E. simpl. f_equal. rewrite !fold_left_app. simpl.
  rewrite ltb_spec, E.
  now destruct (Prim2SF (fold_left _ l1 x)).
Qed.

End FloatBounds.

(** ** The loop, once more *)

Section LoopFacts.
Variable fpow : float -> float -> float.

(** A loop of [a + b] iterations is one of [a] followed by one of [b]. *)
Lemma for_range_add a b body : forall s,
  for_range (a + b) body s
  = match for_range a body s with
    | (Ok _, s') => for_range b body s'
    | (Raise e, s') => (Raise e, s')
    end.
Proof.
  induction a as [|a IH]; intros s; [reflexivity|].
  simpl. unfold bind. destruct (body s) as [[[]|e] s1]; [apply IH | reflexivity].
Qed.

(** The loop prints nothing. *)
Lemma loop_stdout v dt dx U n k s r s' :
  for_range k (step fpow v dt dx U n) s = (r, s') -> stdout s' = stdout s.
Proof.
  destruct (shapes_agree v (profile s)) eqn:S.
  - destruct (loop_agree fpow v dt dx U n k s S) as [t [_ ->]].
    now intros [= _ <-].
  - destruct k as [|k].
    + now intros [= _ <-].
    + rewrite loop_disagree by exact S. now intros [= _ <-].
Qed.

End LoopFacts.

Section StepMore.
Variable fpow : float -> float -> float.

(** A step that goes through adds to every non-outlet node its element of
    the temporary, then [U*dt]. *)
Lemma step_inner v dt dx U n z out :
  shapes_agree v z = true ->
  exists e z',
    erosion fpow v dt dx n z = Ok e /\ length e = length z - 1 /\
    step fpow v dt dx U n (mkStore z out) = (Ok tt, mkStore z' out) /\
    length z' = length z /\
    forall i, i + 1 < length z ->
      nth i z' 0%float = (nth i z 0 + nth i e 0 + U * dt)%float.
Proof.
  intros S.
  destruct (erosion_agree fpow v dt dx n z S) as [e [He Le]].
  assert (Ht : Np.iadd (Np.upto_last z) e = Ok (Np.zip add (Np.upto_last z) e)).
  { apply iadd_same. now rewrite ArrayFacts.upto_last_length. }
  assert (Lt : length (Np.zip add (Np.upto_last z) e) = length z - 1).
  { rewrite ArrayFacts.zip_length; rewrite ArrayFacts.upto_last_length; auto. }
  exists e. eexists. split; [exact He|]. split; [exact Le|]. split; [|split].
  - exact (step_run fpow v dt dx U n (mkStore z out) e _ He Ht).
  - rewrite ArrayFacts.app_outlet_length; [reflexivity|].
    now rewrite length_map, Lt, ArrayFacts.upto_last_length.
  - intros i Hi.
    rewrite app_nth1 by (rewrite length_map, Lt; lia).
    rewrite map_nth_in by (rewrite Lt; lia).
    rewrite ArrayFacts.zip_nth
      by (rewrite ArrayFacts.upto_last_length; lia).
    now rewrite ArrayFacts.upto_last_nth by lia.
Qed.

(** The elements of the temporary when [v] has two elements. *)
Lemma erosion_nth_stretched v0 v1 dt dx n z e i :
  i + 1 < length z ->
  erosion fpow [v0; v1] dt dx n z = Ok e ->
  nth i e 0%float
  = (v1 * dt * fpow (abs (nth (i + 1) z 0 - nth i z 0) / dx) n)%float.
Proof.
  intros Hi. unfold erosion. rewrite differences.
  assert (Ld := differences_length z).
  set (d := Np.zip sub (Np.from1 z) (Np.upto_last z)) in *.
  assert (Hd : nth i d 0%float = (nth (i + 1) z 0 - nth i z 0)%float).
  { unfold d. rewrite ArrayFacts.zip_nth
      by (rewrite ArrayFacts.from1_length, ?ArrayFacts.upto_last_length; lia).
    rewrite ArrayFacts.from1_nth, ArrayFacts.upto_last_nth by lia.
    now rewrite Nat.add_1_r. }
  unfold Np.broadcast. cbn [Np.from1 tl map length].
  rewrite length_map, Ld.
  destruct (1 =? length z - 1)%nat eqn:E.
  - apply Nat.eqb_eq in E. intros [= <-].
    rewrite ArrayFacts.zip_nth; cbn [length]; rewrite ?length_map; try lia.
    assert (i = 0) by lia. subst i.
    rewrite map_nth_in by lia. cbn [nth]. now rewrite Hd.
  - intros [= <-]. rewrite !map_nth_in by (rewrite ?length_map; lia).
    unfold slope_power. now rewrite Hd.
Qed.

End StepMore.

(** ** What a call prints *)

(** X1. Whatever the inputs and whatever the outcome, a call prints nothing
    when the analyzer raises, and otherwise prints the three lines of the
    warning exactly when the requested timestep exceeds [dt_stable], once:
    the loop prints nothing, however many iterations it runs, and a later
    exception takes nothing back. *)
Theorem warning_printed_once
    (fpow : float -> float -> float) (z : Np.array) (dx : float)
    (A : Np.array) (total_time dt U K m n : float) :
  stdout (snd (call fpow z dx A total_time dt U K m n))
  = match dt_stable dx (velocity fpow K A m) with
    | Ok k => if Py.gt_int dt k then warning k else []
    | Raise _ => []
    end.
Proof.
  destruct (dt_stable dx (velocity fpow K A m)) as [k|e] eqn:H1.
  2:{ now rewrite (call_analyzer_raise fpow z dx A total_time dt U K m n e H1). }
  fold (printed dt k).
  destruct (nt_iterations total_time (effective_dt dt k)) as [nt|e] eqn:H2.
  2:{ now rewrite (call_count_raise fpow z dx A total_time dt U K m n k e H1 H2). }
  rewrite (call_loop fpow z dx A total_time dt U K m n k nt H1 H2).
  destruct (for_range _ _ _) as [r s] eqn:L.
  apply loop_stdout in L. simpl in L. now destruct r.
Qed.

(** ** Arrays of one length *)

(** X2. With a drainage-area array as long as the profile, the call can fail
    in two places only: the stability analyzer, with nothing printed, and the
    iteration count, after the warning if any.  Once both have gone through
    the loop never raises, whatever the values in the arrays: the call
    returns the caller's array, its last element kept. *)
Theorem matching_shapes_outcome
    (fpow : float -> float -> float) (z : Np.array) (dx : float)
    (A : Np.array) (total_time dt U K m n : float) :
  length A = length z ->
  match dt_stable dx (velocity fpow K A m) with
  | Raise e =>
      call fpow z dx A total_time dt U K m n = (Raise e, mkStore z [])
  | Ok k =>
      match nt_iterations total_time (effective_dt dt k) with
      | Raise e =>
          call fpow z dx A total_time dt U K m n
          = (Raise e, mkStore z (printed dt k))
      | Ok nt =>
          exists t, length t = length z - 1 /\
            call fpow z dx A total_time dt U K m n
            = (Ok (t ++ Np.outlet z),
               mkStore (t ++ Np.outlet z) (printed dt k))
      end
  end.
Proof.
  intros L.
  destruct (dt_stable dx (velocity fpow K A m)) as [k|e] eqn:H1;
    [| now apply call_analyzer_raise].
  destruct (nt_iterations total_time (effective_dt dt k)) as [nt|e] eqn:H2;
    [| now apply call_count_raise].
  rewrite (call_loop fpow z dx A total_time dt U K m n k nt H1 H2).
  assert (S : shapes_agree (velocity fpow K A m) z = true).
  { unfold shapes_agree, velocity. now rewrite length_map, L, Nat.eqb_refl. }
  destruct (loop_agree fpow (velocity fpow K A m) (effective_dt dt k) dx U n
              (Z.to_nat nt) (mkStore z (printed dt k)) S) as [t [Lt ->]].
  exists t. split; [exact Lt | reflexivity].
Qed.

Lemma matching_shapes_outcome_witness :
  length Demo.A3 = length Demo.z3 /\
  match dt_stable 50 (velocity pow_fastpath Demo.K Demo.A3 0.5) with
  | Raise e =>
      call pow_fastpath Demo.z3 50 Demo.A3 100 50 Demo.U Demo.K 0.5 1
      = (Raise e, mkStore Demo.z3 [])
  | Ok k =>
      match nt_iterations 100 (effective_dt 50 k) with
      | Raise e =>
          call pow_fastpath Demo.z3 50 Demo.A3 100 50 Demo.U Demo.K 0.5 1
          = (Raise e, mkStore Demo.z3 (printed 50 k))
      | Ok nt =>
          exists t, length t = length Demo.z3 - 1 /\
            call pow_fastpath Demo.z3 50 Demo.A3 100 50 Demo.U Demo.K 0.5 1
            = (Ok (t ++ Np.outlet Demo.z3),
               mkStore (t ++ Np.outlet Demo.z3) (printed 50 k))
      end
  end.
Proof.
  split; [reflexivity|].
  apply (matching_shapes_outcome pow_fastpath Demo.z3 50 Demo.A3 100 50
           Demo.U Demo.K 0.5 1).
  reflexivity.
Defined.

(** ** Restarting from a returned profile *)

(** X3. Splitting a run in two gives the same result, bit for bit: when the
    iteration counts of two total times add up to that of a third, a call
    over the second total time on the profile returned by a call over the
    first returns what a single call over the third returns from the
    original profile, and prints the same. *)
Theorem restart_composes
    (fpow : float -> float -> float) (z : Np.array) (dx : float)
    (A : Np.array) (t1 t2 t12 dt U K m n : float) (k n1 n2 : Z)
    (z1 : Np.array) (s1 : store) :
  dt_stable dx (velocity fpow K A m) = Ok k ->
  nt_iterations t1 (effective_dt dt k) = Ok n1 ->
  nt_iterations t2 (effective_dt dt k) = Ok n2 ->
  nt_iterations t12 (effective_dt dt k) = Ok (n1 + n2)%Z ->
  (0 <= n1)%Z -> (0 <= n2)%Z ->
  call fpow z dx A t1 dt U K m n = (Ok z1, s1) ->
  call fpow z1 dx A t2 dt U K m n = call fpow z dx A t12 dt U K m n.
Proof.
  intros H1 N1 N2 N12 P1 P2 C1.
  rewrite (call_loop fpow z dx A t1 dt U K m n k n1 H1 N1) in C1.
  rewrite (call_loop fpow z dx A t12 dt U K m n k _ H1 N12).
  rewrite (call_loop fpow z1 dx A t2 dt U K m n k n2 H1 N2).
  rewrite Z2Nat.inj_add by assumption. rewrite for_range_add.
  destruct (for_range (Z.to_nat n1) _ _) as [[[]|e] s] eqn:L; [|discriminate].
  injection C1 as <- <-.
  apply loop_stdout in L. simpl in L.
  destruct s as [p o]. simpl in *. now subst o.
Qed.

Lemma restart_composes_witness :
  exists z1 s1,
    call pow_fastpath Demo.z3 50 Demo.A3 100 50 Demo.U Demo.K 0.5 1
    = (Ok z1, s1) /\
    dt_stable 50 (velocity pow_fastpath Demo.K Demo.A3 0.5) = Ok 15833%Z /\
    nt_iterations 100 (effective_dt 50 15833) = Ok 2%Z /\
    nt_iterations 200 (effective_dt 50 15833) = Ok (2 + 2)%Z /\
    (0 <= 2)%Z /\
    call pow_fastpath z1 50 Demo.A3 100 50 Demo.U Demo.K 0.5 1
    = call pow_fastpath Demo.z3 50 Demo.A3 200 50 Demo.U Demo.K 0.5 1.
Proof.
  assert (H1 : dt_stable 50 (velocity pow_fastpath Demo.K Demo.A3 0.5)
               = Ok 15833%Z) by (vm_compute; reflexivity).
  assert (N1 : nt_iterations 100 (effective_dt 50 15833) = Ok 2%Z)
    by (vm_compute; reflexivity).
  assert (N12 : nt_iterations 200 (effective_dt 50 15833) = Ok (2 + 2)%Z)
    by (vm_compute; reflexivity).
  assert (P : (0 <= 2)%Z) by lia.
  do 2 eexists. split; [vm_compute; reflexivity|].
  refine (conj H1 (conj N1 (conj N12 (conj P _)))).
  eapply (restart_composes pow_fastpath Demo.z3 50 Demo.A3 100 100 200 50
            Demo.U Demo.K 0.5 1 15833 2 2);
    [exact H1 | exact N1 | exact N1 | exact N12 | exact P | exact P |].
  vm_compute. reflexivity.
Defined.

(** ** The analyzer at its edges *)

(** X4. Whenever the bound [0.95*dx/max(abs(v))] is at least 0 and below 1
    and the requested timestep is positive, [dt_stable] is 0, the warning is
    printed with 0.00, and the call raises [ZeroDivisionError] with the
    profile as it was: no input with such a bound can be run, whatever its
    timestep. *)
Theorem bound_below_one_aborts
    (fpow : float -> float -> float) (z : Np.array) (dx : float)
    (A : Np.array) (total_time dt U K m n mx : float) :
  Py.max (map abs (velocity fpow K A m)) = Ok mx ->
  (0 <=? c095 * dx / mx)%float = true ->
  (c095 * dx / mx <? 1)%float = true ->
  (0 <? dt)%float = true ->
  call fpow z dx A total_time dt U K m n
  = (Raise ZeroDivisionError, mkStore z (warning 0)).
Proof.
  intros Hm H0 H1 Hdt.
  assert (Hk : dt_stable dx (velocity fpow K A m) = Ok 0%Z).
  { unfold dt_stable. rewrite Hm. now apply FloatBounds.int_below_one. }
  pose proof (FloatBounds.gt_int_zero dt Hdt) as G.
  rewrite (call_count_raise fpow z dx A total_time dt U K m n 0
             ZeroDivisionError Hk).
  - unfold printed. now rewrite G.
  - unfold effective_dt. rewrite G. reflexivity.
Qed.

Lemma bound_below_one_aborts_witness :
  Py.max (map abs (velocity pow_fastpath 2 Demo.A3 0.5)) = Ok 60%float /\
  (0 <=? c095 * 50 / 60)%float = true /\
  (c095 * 50 / 60 <? 1)%float = true /\
  (0 <? 50)%float = true /\
  call pow_fastpath Demo.z3 50 Demo.A3 10000 50 Demo.U 2 0.5 1
  = (Raise ZeroDivisionError, mkStore Demo.z3 (warning 0)).
Proof.
  assert (H1 : Py.max (map abs (velocity pow_fastpath 2 Demo.A3 0.5))
               = Ok 60%float) by (vm_compute; reflexivity).
  assert (H2 : (0 <=? c095 * 50 / 60)%float = true) by reflexivity.
  assert (H3 : (c095 * 50 / 60 <? 1)%float = true) by reflexivity.
  assert (H4 : (0 <? 50)%float = true) by reflexivity.
  refine (conj H1 (conj H2 (conj H3 (conj H4 _)))).
  exact (bound_below_one_aborts pow_fastpath Demo.z3 50 Demo.A3 10000 50
           Demo.U 2 0.5 1 60 H1 H2 H3 H4).
Defined.

(** X5. For a bound [0.95*dx/max(abs(v))] that is finite and not negative,
    [dt_stable] is its floor: on the exact value of the bound,
    [dt_stable <= bound < dt_stable + 1].  The truncation never goes above
    the bound and loses less than one unit of time. *)
Theorem dt_stable_is_floor (dx : float) (v : Np.array) (mx : float) :
  Py.max (map abs v) = Ok mx ->
  (0 <=? c095 * dx / mx)%float = true ->
  (c095 * dx / mx <? infinity)%float = true ->
  dt_stable dx v = Ok (Py.floor (c095 * dx / mx)) /\
  let (p, d) := Py.ratio (Prim2SF (c095 * dx / mx)) in
  (0 < d /\
   Py.floor (c095 * dx / mx) * d <= p < (Py.floor (c095 * dx / mx) + 1) * d)%Z.
Proof.
  intros Hm H0 H1. split.
  - unfold dt_stable. rewrite Hm. now apply FloatFacts.int_floor_nonneg.
  - apply FloatBounds.floor_sandwich.
Qed.

Lemma dt_stable_is_floor_witness :
  Py.max (map abs [-1; -2; -3]%float) = Ok 3%float /\
  (0 <=? c095 * 50 / 3)%float = true /\
  (c095 * 50 / 3 <? infinity)%float = true /\
  (dt_stable 50 [-1; -2; -3]%float = Ok (Py.floor (c095 * 50 / 3)) /\
   let (p, d) := Py.ratio (Prim2SF (c095 * 50 / 3)) in
   (0 < d /\
    Py.floor (c095 * 50 / 3) * d <= p < (Py.floor (c095 * 50 / 3) + 1) * d)%Z).
Proof.
  assert (H1 : Py.max (map abs [-1; -2; -3]%float) = Ok 3%float)
    by reflexivity.
  assert (H2 : (0 <=? c095 * 50 / 3)%float = true) by reflexivity.
  assert (H3 : (c095 * 50 / 3 <? infinity)%float = true) by reflexivity.
  refine (conj H1 (conj H2 (conj H3 _))).
  exact (dt_stable_is_floor 50 [-1; -2; -3]%float 3 H1 H2 H3).
Defined.

(** X6. With a positive grid spacing [dt_stable], when it is bound, is never
    negative; a requested timestep that is zero or negative is then never
    clamped and no warning is printed for it. *)
Theorem dt_stable_nonnegative (dx : float) (v : Np.array) (k : Z) :
  (0 <? dx)%float = true ->
  dt_stable dx v = Ok k ->
  (0 <= k)%Z /\
  forall dt, (dt <=? 0)%float = true ->
    effective_dt dt k = dt /\ printed dt k = [].
Proof.
  intros Hdx H. unfold dt_stable in H.
  destruct (Py.max (map abs v)) as [mx|e] eqn:Hm; [|discriminate].
  apply FloatBounds.max_in in Hm. apply in_map_iff in Hm as [y [<- _]].
  assert (Hk : (0 <= k)%Z)
    by exact (FloatBounds.int_nonneg _ k (FloatBounds.quotient_sign dx y Hdx) H).
  split; [exact Hk|]. intros dt Hdt.
  unfold effective_dt, printed. now rewrite (FloatBounds.gt_int_nonpos dt k Hdt Hk).
Qed.

Lemma dt_stable_nonnegative_witness :
  (0 <? 50)%float = true /\
  dt_stable 50 [-1; -2; -3]%float = Ok 15%Z /\
  ((0 <= 15)%Z /\
   forall dt, (dt <=? 0)%float = true ->
     effective_dt dt 15 = dt /\ printed dt 15 = []).
Proof.
  assert (H1 : (0 <? 50)%float = true) by reflexivity.
  assert (H2 : dt_stable 50 [-1; -2; -3]%float = Ok 15%Z)
    by (vm_compute; reflexivity).
  refine (conj H1 (conj H2 _)).
  exact (dt_stable_nonnegative 50 [-1; -2; -3]%float 15 H1 H2).
Defined.

(** X7. A NaN velocity at index 0 stops the call: [max] keeps it, the bound
    is NaN and [int] raises [ValueError], with nothing printed and the
    profile as it was. *)
Theorem leading_nan_velocity_raises
    (fpow : float -> float -> float) (z : Np.array) (dx : float)
    (a : float) (A : Np.array) (total_time dt U K m n : float) :
  is_nan (- K * fpow a m) = true ->
  call fpow z dx (a :: A) total_time dt U K m n
  = (Raise (ValueError NanToInteger), mkStore z []).
Proof.
  intros H. apply FloatBounds.is_nan_spec in H. apply call_analyzer_raise.
  unfold dt_stable, velocity. cbn [map].
  rewrite FloatBounds.max_nan_first by (now rewrite abs_spec, H).
  apply FloatFacts.int_div_nan. now rewrite abs_spec, H.
Qed.

Lemma leading_nan_velocity_raises_witness :
  is_nan (- Demo.K * pow_fastpath (-1) 0.5) = true /\
  call pow_fastpath Demo.zeros2 50 [-1; 4]%float 100 50 Demo.U Demo.K 0.5 1
  = (Raise (ValueError NanToInteger), mkStore Demo.zeros2 []).
Proof.
  assert (H : is_nan (- Demo.K * pow_fastpath (-1) 0.5) = true)
    by reflexivity.
  split; [exact H|].
  exact (leading_nan_velocity_raises pow_fastpath Demo.zeros2 50 (-1)
           [4]%float 100 50 Demo.U Demo.K 0.5 1 H).
Defined.

(** X8. A NaN velocity at any later index goes unseen: [max] skips it, and
    [dt_stable] is what it is for the velocities without it. *)
Theorem later_nan_velocity_unseen (dx x y : float) (l1 l2 : Np.array) :
  is_nan y = true ->
  dt_stable dx (x :: l1 ++ y :: l2) = dt_stable dx (x :: l1 ++ l2).
Proof.
  intros H. apply FloatBounds.is_nan_spec in H. unfold dt_stable.
  cbn [map]. rewrite !map_app. cbn [map].
  rewrite FloatBounds.max_skips_nan by (now rewrite abs_spec, H). reflexivity.
Qed.

Lemma later_nan_velocity_unseen_witness :
  is_nan nan = true /\
  dt_stable 50 ((-1)%float :: [] ++ nan :: [(-2)%float])
  = dt_stable 50 ((-1)%float :: [] ++ [(-2)%float]).
Proof.
  assert (H : is_nan nan = true) by reflexivity.
  split; [exact H|].
  exact (later_nan_velocity_unseen 50 (-1) nan [] [(-2)%float] H).
Defined.

(** X9. A NaN timestep is never clamped, and a NaN timestep or a NaN total
    time (with a timestep that is not zero) makes the iteration count raise
    [ValueError]: the call stops after the analyzer, before any step. *)
Theorem nan_time_raises
    (fpow : float -> float -> float) (z : Np.array) (dx : float)
    (A : Np.array) (total_time dt U K m n : float) (k : Z) :
  dt_stable dx (velocity fpow K A m) = Ok k ->
  is_nan dt = true \/
  (is_nan total_time = true /\ (effective_dt dt k =? 0)%float = false) ->
  call fpow z dx A total_time dt U K m n
  = (Raise (ValueError NanToInteger), mkStore z (printed dt k)).
Proof.
  intros H1 H. apply call_count_raise; [exact H1|].
  unfold nt_iterations, Py.truediv.
  destruct H as [H | [H Hz]].
  - apply FloatBounds.is_nan_spec in H.
    assert (E : effective_dt dt k = dt)
      by (unfold effective_dt, Py.gt_int; now rewrite H).
    rewrite E, eqb_spec, H. cbn. now apply FloatFacts.int_div_nan.
  - rewrite Hz. apply FloatBounds.is_nan_spec in H.
    unfold Py.int. now rewrite div_spec, H.
Qed.

Lemma nan_time_raises_witness :
  dt_stable 50 (velocity pow_fastpath Demo.K Demo.A3 0.5) = Ok 15833%Z /\
  (is_nan nan = true \/
   (is_nan 100 = true /\ (effective_dt nan 15833 =? 0)%float = false)) /\
  call pow_fastpath Demo.z3 50 Demo.A3 100 nan Demo.U Demo.K 0.5 1
  = (Raise (ValueError NanToInteger), mkStore Demo.z3 (printed nan 15833)).
Proof.
  assert (H1 : dt_stable 50 (velocity pow_fastpath Demo.K Demo.A3 0.5)
               = Ok 15833%Z) by (vm_compute; reflexivity).
  assert (H2 : is_nan nan = true \/
               (is_nan 100 = true /\
                (effective_dt nan 15833 =? 0)%float = false))
    by (left; reflexivity).
  refine (conj H1 (conj H2 _)).
  exact (nan_time_raises pow_fastpath Demo.z3 50 Demo.A3 100 nan Demo.U
           Demo.K 0.5 1 15833 H1 H2).
Defined.

(** ** The step, once more *)

(** X10. With a drainage-area array of two elements the step goes through
    on a profile of any length, and every non-outlet node is eroded with the
    one velocity [v[1]]: [v[1:]] is stretched over the profile. *)
Theorem two_areas_use_one_velocity
    (fpow : float -> float -> float) (z A : Np.array)
    (dt dx U K m n : float) (out : list string) :
  length A = 2 ->
  exists z',
    step fpow (velocity fpow K A m) dt dx U n (mkStore z out)
    = (Ok tt, mkStore z' out) /\
    length z' = length z /\
    forall i, i + 1 < length z ->
      nth i z' 0%float
      = (nth i z 0
         + (- K * fpow (nth 1 A 0) m) * dt
           * fpow (abs (nth (i + 1) z 0 - nth i z 0) / dx) n
         + U * dt)%float.
Proof.
  intros LA. destruct A as [|a0 [|a1 [|a2 A]]]; try discriminate.
  destruct (step_inner fpow (velocity fpow K [a0; a1] m) dt dx U n z out)
    as [e [z' [He [_ [Hs [Lz Hn]]]]]];
    [unfold shapes_agree; apply orb_true_r|].
  exists z'. split; [exact Hs|]. split; [exact Lz|].
  intros i Hi. rewrite (Hn i Hi).
  now rewrite (erosion_nth_stretched fpow _ _ dt dx n z e i Hi He).
Qed.

Lemma two_areas_use_one_velocity_witness :
  length Demo.ones2 = 2 /\
  exists z',
    step pow_fastpath (velocity pow_fastpath Demo.K Demo.ones2 1)
         50 50 Demo.U 1 (mkStore Demo.z3 [])
    = (Ok tt, mkStore z' []) /\
    length z' = length Demo.z3 /\
    forall i, i + 1 < length Demo.z3 ->
      nth i z' 0%float
      = (nth i Demo.z3 0
         + (- Demo.K * pow_fastpath (nth 1 Demo.ones2 0) 1) * 50
           * pow_fastpath (abs (nth (i + 1) Demo.z3 0 - nth i Demo.z3 0) / 50) 1
         + Demo.U * 50)%float.
Proof.
  split; [reflexivity|].
  apply (two_areas_use_one_velocity pow_fastpath Demo.z3 Demo.ones2
           50 50 Demo.U Demo.K 1 1 []).
  reflexivity.
Defined.

(** A finite value is a zero or a finite number. *)
Lemma finite_cases (c : float) :
  is_finite c = true ->
  match Prim2SF c with
  | S754_zero _ | S754_finite _ _ _ => True
  | _ => False
  end.
Proof.
  unfold is_finite, is_nan, is_infinity.
  rewrite !eqb_spec, abs_spec.
  change (Prim2SF infinity) with (S754_infinity false).
  destruct (Prim2SF c) as [s|s| |s mc ec]; cbn; try discriminate; auto.
  destruct s; discriminate.
Qed.

(** X11. With the slope exponent 1 (and [x ** 1] being [x]), a node that
    has the elevation of its downstream neighbour is only uplifted: for a
    finite elevation [c] other than -0.0, a grid spacing that is neither
    zero nor NaN and a finite [v[i+1]*dt], the step sets it to [c + U*dt]
    exactly.  The first step on a flat profile raises every non-outlet node
    by [U*dt]. *)
Theorem flat_segment_is_uplifted
    (fpow : float -> float -> float) (v z : Np.array)
    (dt dx U c : float) (out : list string) (i : nat) :
  (forall y, fpow y 1%float = y) ->
  length v = length z -> i + 1 < length z ->
  nth i z 0%float = c -> nth (i + 1) z 0%float = c ->
  is_finite c = true -> PrimFloat.Leibniz.eqb c (-0)%float = false ->
  (dx =? 0)%float = false -> is_nan dx = false ->
  is_finite (nth (i + 1) v 0 * dt)%float = true ->
  exists z',
    step fpow v dt dx U 1%float (mkStore z out) = (Ok tt, mkStore z' out) /\
    nth i z' 0%float = (c + U * dt)%float.
Proof.
  intros Hp Lv Hi Hc Hc1 Fc Nz Hdx Ndx Fw.
  destruct (step_inner fpow v dt dx U 1 z out)
    as [e [z' [He [_ [Hs [_ Hn]]]]]].
  { unfold shapes_agree. now rewrite Lv, Nat.eqb_refl. }
  exists z'. split; [exact Hs|]. rewrite (Hn i Hi), Hc.
  rewrite (erosion_nth fpow v dt dx 1 z e i Lv Hi He), Hc, Hc1, Hp.
  f_equal. apply Prim2SF_inj.
  rewrite add_spec, mul_spec, div_spec, abs_spec, sub_spec.
  apply finite_cases in Fc, Fw.
  pose proof (FloatFacts.eqb_zero_false _ Hdx) as Zdx.
  unfold is_nan in Ndx. rewrite eqb_spec in Ndx.
  assert (Nc : Prim2SF c <> S754_zero true).
  { intros E. assert (c = (-0)%float) by (apply Prim2SF_inj; now rewrite E).
    apply Leibniz.eqb_spec in H. congruence. }
  assert (D : SFabs (SF64sub (Prim2SF c) (Prim2SF c)) = S754_zero false).
  { destruct (Prim2SF c) as [sc|sc| |sc mc ec]; try contradiction.
    - now destruct sc.
    - unfold SF64sub, SFsub. now rewrite Z.sub_diag. }
  rewrite D.
  assert (Q : exists s, SF64div (S754_zero false) (Prim2SF dx) = S754_zero s).
  { destruct (Prim2SF dx) as [sd|sd| |sd md ed].
    - now elim (Zdx sd).
    - now exists sd.
    - discriminate Ndx.
    - now exists sd. }
  destruct Q as [s ->].
  assert (P : exists s',
             SF64mul (Prim2SF (nth (i + 1) v 0 * dt)%float) (S754_zero s)
             = S754_zero s').
  { destruct (Prim2SF (nth (i + 1) v 0 * dt)%float) as [sw|sw| |sw mw ew];
      try contradiction; now eexists. }
  destruct P as [s' ->].
  destruct (Prim2SF c) as [sc|sc| |sc mc ec]; try contradiction.
  - destruct sc; [now elim Nc|]. now destruct s'.
  - reflexivity.
Qed.

Lemma flat_segment_is_uplifted_witness :
  (forall y, pow_fastpath y 1%float = y) /\
  length [-1; -2; -3]%float = length Demo.zeros3 /\
  0 + 1 < length Demo.zeros3 /\
  nth 0 Demo.zeros3 0%float = 0%float /\
  nth (0 + 1) Demo.zeros3 0%float = 0%float /\
  is_finite 0 = true /\ PrimFloat.Leibniz.eqb 0 (-0)%float = false /\
  (50 =? 0)%float = false /\ is_nan 50 = false /\
  is_finite (nth (0 + 1) [-1; -2; -3] 0 * 50)%float = true /\
  exists z',
    step pow_fastpath [-1; -2; -3]%float 50 50 Demo.U 1%float
         (mkStore Demo.zeros3 [])
    = (Ok tt, mkStore z' []) /\
    nth 0 z' 0%float = (0 + Demo.U * 50)%float.
Proof.
  assert (H0 : forall y, pow_fastpath y 1%float = y) by (intros y; reflexivity).
  assert (H1 : length [-1; -2; -3]%float = length Demo.zeros3) by reflexivity.
  assert (H2 : 0 + 1 < length Demo.zeros3) by (simpl; lia).
  assert (H3 : nth 0 Demo.zeros3 0%float = 0%float) by reflexivity.
  assert (H4 : nth (0 + 1) Demo.zeros3 0%float = 0%float) by reflexivity.
  assert (H5 : is_finite 0 = true) by reflexivity.
  assert (H6 : PrimFloat.Leibniz.eqb 0 (-0)%float = false) by reflexivity.
  assert (H7 : (50 =? 0)%float = false) by reflexivity.
  assert (H8 : is_nan 50 = false) by reflexivity.
  assert (H9 : is_finite (nth (0 + 1) [-1; -2; -3] 0 * 50)%float = true)
    by reflexivity.
  refine (conj H0 (conj H1 (conj H2 (conj H3 (conj H4 (conj H5 (conj H6
            (conj H7 (conj H8 (conj H9 _)))))))))).
  exact (flat_segment_is_uplifted pow_fastpath [-1; -2; -3]%float
           Demo.zeros3 50 50 Demo.U 0 [] 0 H0 H1 H2 H3 H4 H5 H6 H7 H8 H9).
Defined.

(** ** Exceptions and the profile *)

(** [int] raises on infinities and NaN only. *)
Lemma int_raises (x : float) (e : exn) :
  Py.int x = Raise e -> e = OverflowError \/ e = ValueError NanToInteger.
Proof.
  unfold Py.int. destruct (Prim2SF x) as [s|s| |s m ex]; cbn;
    intros [= <-]; auto.
Qed.

(** X12. A call that raises leaves the caller's array as it was, and the
    exception tells the stage: [ValueError] for an empty sequence comes from
    [max] and only for an empty drainage-area array; [ZeroDivisionError]
    comes from the iteration count and only when the timestep in force,
    requested or clamped, is a zero; the broadcasting [ValueError] comes from
    the loop and only for arrays of different lengths. *)
Theorem exceptions_by_stage
    (fpow : float -> float -> float) (z : Np.array) (dx : float)
    (A : Np.array) (total_time dt U K m n : float) (e : exn) (s : store) :
  call fpow z dx A total_time dt U K m n = (Raise e, s) ->
  profile s = z /\
  match e with
  | ValueError EmptySequence => A = []
  | ValueError Broadcast => length A <> length z
  | ZeroDivisionError =>
      exists k, dt_stable dx (velocity fpow K A m) = Ok k /\
                (effective_dt dt k =? 0)%float = true
  | _ => True
  end.
Proof.
  intros H. split; [exact (raise_leaves_profile _ _ _ _ _ _ _ _ _ _ _ _ H)|].
  destruct (dt_stable dx (velocity fpow K A m)) as [k|e0] eqn:H1.
  2:{ rewrite (call_analyzer_raise fpow z dx A total_time dt U K m n e0 H1) in H.
      injection H as <- _. unfold dt_stable in H1.
      destruct A as [|a A]; [now injection H1 as <-|].
      cbn [velocity map Py.max] in H1.
      destruct (int_raises _ _ H1) as [-> | ->]; exact I. }
  destruct (nt_iterations total_time (effective_dt dt k)) as [nt|e0] eqn:H2.
  2:{ rewrite (call_count_raise fpow z dx A total_time dt U K m n k e0 H1 H2) in H.
      injection H as <- _. unfold nt_iterations, Py.truediv in H2.
      destruct (effective_dt dt k =? 0)%float eqn:Z.
      - injection H2 as <-. now exists k.
      - destruct (int_raises _ _ H2) as [-> | ->]; exact I. }
  rewrite (call_loop fpow z dx A total_time dt U K m n k nt H1 H2) in H.
  destruct (shapes_agree (velocity fpow K A m) z) eqn:S.
  - destruct (loop_agree fpow (velocity fpow K A m) (effective_dt dt k) dx U n
                (Z.to_nat nt) (mkStore z (printed dt k)) S) as [t [_ E]].
    rewrite E in H. discriminate.
  - destruct (Z.to_nat nt) as [|j]; [discriminate|].
    rewrite loop_disagree in H by exact S. injection H as <- _.
    intros L. unfold shapes_agree, velocity in S.
    now rewrite length_map, L, Nat.eqb_refl in S.
Qed.

Lemma exceptions_by_stage_witness :
  call pow_fastpath Demo.zeros2 50 Demo.A3 100 50 Demo.U Demo.K 0.5 1
  = (Raise (ValueError Broadcast), mkStore Demo.zeros2 []) /\
  (profile (mkStore Demo.zeros2 []) = Demo.zeros2 /\
   length Demo.A3 <> length Demo.zeros2).
Proof.
  assert (H : call pow_fastpath Demo.zeros2 50 Demo.A3 100 50 Demo.U Demo.K
                0.5 1
              = (Raise (ValueError Broadcast), mkStore Demo.zeros2 []))
    by (vm_compute; reflexivity).
  split; [exact H|].
  exact (exceptions_by_stage pow_fastpath Demo.zeros2 50 Demo.A3 100 50
           Demo.U Demo.K 0.5 1 (ValueError Broadcast) _ H).
Defined.
